(** * rviz FPSRollViewController: a shallow embedding

    Source: src/rviz/default_plugin/view_controllers/fps_roll_view_controller.cpp

    Conventions of the embedding.
    - C++ [float]/[double] values are idealised as real numbers ([R]):
      rounding, NaN and infinities are not modelled.
    - C++ [int] and [int32_t] values are integers ([Z]).  Signed overflow is
      undefined behaviour in C++, so the model covers the executions in
      which the pointer and wheel differences do not overflow.
    - Methods of the controller are state-passing functions on the record
      [FPSRollViewController]; calls made on the display context (status
      text, cursor shape, render requests, transform lookups) are recorded
      in the state. *)

From Stdlib Require Import Reals Lra Lia ZArith List Bool String.
Import ListNotations.
Open Scope R_scope.

(** ** The parts of the Ogre math library the controller calls

    Ogre is an external library; these are the formulas of OgreVector3.h,
    OgreQuaternion.h/.cpp and OgreMath.h, on real numbers. *)

Module Ogre.

Definition HALF_PI : R := PI / 2.
Definition TWO_PI : R := 2 * PI.

Record Vector3 : Type := mkVector3 { vx : R; vy : R; vz : R }.

Definition ZERO : Vector3 := mkVector3 0 0 0.
Definition UNIT_X : Vector3 := mkVector3 1 0 0.
Definition UNIT_Y : Vector3 := mkVector3 0 1 0.
Definition UNIT_Z : Vector3 := mkVector3 0 0 1.
Definition NEGATIVE_UNIT_Z : Vector3 := mkVector3 0 0 (-1).

(** Vector3::operator+, operator-, operator*(Real) *)
Definition vadd (a b : Vector3) : Vector3 :=
  mkVector3 (vx a + vx b) (vy a + vy b) (vz a + vz b).
Definition vsub (a b : Vector3) : Vector3 :=
  mkVector3 (vx a - vx b) (vy a - vy b) (vz a - vz b).
Definition vscale (k : R) (a : Vector3) : Vector3 :=
  mkVector3 (vx a * k) (vy a * k) (vz a * k).

Definition dotProduct (a b : Vector3) : R :=
  vx a * vx b + vy a * vy b + vz a * vz b.

Definition crossProduct (a b : Vector3) : Vector3 :=
  mkVector3 (vy a * vz b - vz a * vy b)
            (vz a * vx b - vx a * vz b)
            (vx a * vy b - vy a * vx b).

Record Quaternion : Type := mkQuaternion { qw : R; qx : R; qy : R; qz : R }.

(** The default constructor of Ogre::Quaternion is the identity rotation. *)
Definition IDENTITY : Quaternion := mkQuaternion 1 0 0 0.
Definition QZERO : Quaternion := mkQuaternion 0 0 0 0.

(** Quaternion::FromAngleAxis, also the (Radian, Vector3) constructor. *)
Definition FromAngleAxis (rfAngle : R) (rkAxis : Vector3) : Quaternion :=
  let fHalfAngle := 0.5 * rfAngle in
  let fSin := sin fHalfAngle in
  mkQuaternion (cos fHalfAngle)
               (fSin * vx rkAxis) (fSin * vy rkAxis) (fSin * vz rkAxis).

(** Quaternion::operator*(const Quaternion&) *)
Definition qmul (p q : Quaternion) : Quaternion :=
  mkQuaternion
    (qw p * qw q - qx p * qx q - qy p * qy q - qz p * qz q)
    (qw p * qx q + qx p * qw q + qy p * qz q - qz p * qy q)
    (qw p * qy q + qy p * qw q + qz p * qx q - qx p * qz q)
    (qw p * qz q + qz p * qw q + qx p * qy q - qy p * qx q).

Definition Norm (q : Quaternion) : R :=
  qw q * qw q + qx q * qx q + qy q * qy q + qz q * qz q.

(** Quaternion::Inverse: ZERO flags a quaternion of norm zero. *)
Definition Inverse (q : Quaternion) : Quaternion :=
  let fNorm := Norm q in
  if Rlt_dec 0 fNorm then
    let fInvNorm := 1 / fNorm in
    mkQuaternion (qw q * fInvNorm) (- qx q * fInvNorm)
                 (- qy q * fInvNorm) (- qz q * fInvNorm)
  else QZERO.

(** Quaternion::operator*(const Vector3&), the "nVidia SDK" formula. *)
Definition qrot (q : Quaternion) (v : Vector3) : Vector3 :=
  let qvec := mkVector3 (qx q) (qy q) (qz q) in
  let uv := crossProduct qvec v in
  let uuv := crossProduct qvec uv in
  let uv' := vscale (2 * qw q) uv in
  let uuv' := vscale 2 uuv in
  vadd (vadd v uv') uuv'.

(** Math::ASin saturates outside (-1, 1); so does [asin] of the
    standard library. *)
Definition ASin (fValue : R) : R := asin fValue.

(** Math::ATan2 is the C library's atan2. *)
Definition ATan2 (fY fX : R) : R :=
  if Rlt_dec 0 fX then atan (fY / fX)
  else if Rlt_dec fX 0 then
    if Rlt_dec fY 0 then atan (fY / fX) - PI else atan (fY / fX) + PI
  else if Rlt_dec 0 fY then HALF_PI
  else if Rlt_dec fY 0 then - HALF_PI
  else 0.

(** Quaternion::getRoll/getPitch/getYaw with reprojectAxis = false. *)
Definition getRoll (q : Quaternion) : R :=
  ATan2 (2 * (qx q * qy q + qw q * qz q))
        (qw q * qw q + qx q * qx q - qy q * qy q - qz q * qz q).

Definition getPitch (q : Quaternion) : R :=
  ATan2 (2 * (qy q * qz q + qw q * qx q))
        (qw q * qw q - qx q * qx q - qy q * qy q + qz q * qz q).

Definition getYaw (q : Quaternion) : R :=
  ASin (-2 * (qx q * qz q - qw q * qy q)).

(** The pose of an Ogre::Camera: what getPosition/setPosition and
    getOrientation/setOrientation read and write. *)
Record Camera : Type := mkCamera {
  position : Vector3;
  orientation : Quaternion
}.

Definition setPosition (v : Vector3) (c : Camera) : Camera :=
  mkCamera v (orientation c).
Definition setOrientation (q : Quaternion) (c : Camera) : Camera :=
  mkCamera (position c) q.

(** The pose of an Ogre::SceneNode. *)
Record SceneNode : Type := mkSceneNode {
  node_position : Vector3;
  node_orientation : Quaternion
}.

End Ogre.
Import Ogre.

(** ** Collaborators declared outside this file *)

(** Modelled from the spec: rviz/geometry.h [mapAngleTo0_2Pi] is not part
    of the sources at hand.  The spec says it wraps an angle into
    [0, 2π): the representative of the angle modulo 2π in that range. *)
Definition mapAngleTo0_2Pi (angle : R) : R :=
  angle - IZR (Zfloor (angle / TWO_PI)) * TWO_PI.

(** Modelled from the spec: rviz/properties/float_property.h is not part
    of the sources at hand.  A float property holds a value and optional
    bounds; every write is silently saturated at the bounds (spec §7), and
    [add] is the property's own clamped add (spec §4.1). *)
Record FloatProperty : Type := mkFloatProperty {
  fp_value : R;
  fp_min : option R;
  fp_max : option R
}.

Definition saturate (lo hi : option R) (v : R) : R :=
  let v' := match hi with Some h => Rmin h v | None => v end in
  match lo with Some l => Rmax l v' | None => v' end.

Definition getFloat (p : FloatProperty) : R := fp_value p.
Definition getMax (p : FloatProperty) : option R := fp_max p.
Definition getMin (p : FloatProperty) : option R := fp_min p.

Definition setFloat (new_value : R) (p : FloatProperty) : FloatProperty :=
  mkFloatProperty (saturate (fp_min p) (fp_max p) new_value) (fp_min p) (fp_max p).

Definition addFloat (delta : R) (p : FloatProperty) : FloatProperty :=
  setFloat (delta + getFloat p) p.

Definition setMax (m : R) (p : FloatProperty) : FloatProperty :=
  mkFloatProperty (Rmin (fp_value p) m) (fp_min p) (Some m).

Definition setMin (m : R) (p : FloatProperty) : FloatProperty :=
  mkFloatProperty (Rmax (fp_value p) m) (Some m) (fp_max p).

(** A new FloatProperty( name, default_value, ... ) has no bounds. *)
Definition newFloatProperty (default_value : R) : FloatProperty :=
  mkFloatProperty default_value None None.

(** Modelled from the spec: rviz/properties/vector_property.h; an
    unconstrained 3-vector with set and additive delta (spec §3). *)
Definition VectorProperty : Type := Vector3.
Definition getVector (p : VectorProperty) : Vector3 := p.
Definition setVector (v : Vector3) (_ : VectorProperty) : VectorProperty := v.
Definition addVector (offset : Vector3) (p : VectorProperty) : VectorProperty :=
  vadd p offset.

(** rviz/viewport_mouse_event.h: the fields and accessors of the event that
    [handleMouseEvent] reads.  [left], [middle], [right] and [shift] are
    the results of the accessors of the same name. *)
Inductive QEventType : Type :=
| MouseButtonPress | MouseButtonRelease | MouseButtonDblClick
| MouseMove | Wheel | OtherEvent.

Definition is_MouseMove (t : QEventType) : bool :=
  match t with MouseMove => true | _ => false end.

Record ViewportMouseEvent : Type := mkEvent {
  type : QEventType;
  x : Z; y : Z;
  last_x : Z; last_y : Z;
  wheel_delta : Z;
  left : bool; middle : bool; right : bool;
  shift : bool
}.

(** rviz/view_controller.h: the cursor shapes of [setCursor]. *)
Inductive CursorType : Type :=
| Default | Rotate2D | Rotate3D | MoveXY | MoveZ | Zoom | Crosshair.

(** ** State of the controller *)

(** Members inherited from ViewController and
    FramePositionTrackingViewController, together with the calls made on
    the display context: [render_requests_] counts [queueRender] calls and
    [transform_lookups_] lists the frames asked of [getTransform], latest
    first. *)
Record ViewControllerBase : Type := mkBase {
  camera_ : Camera;
  target_frame_property_ : string;
  reference_position_ : Vector3;
  reference_orientation_ : Quaternion;
  target_scene_node_ : SceneNode;
  status_ : string;
  cursor_ : CursorType;
  render_requests_ : nat;
  transform_lookups_ : list string
}.

Record FPSRollViewController : Type := mkController {
  yaw_property_ : FloatProperty;
  pitch_property_ : FloatProperty;
  roll_property_ : FloatProperty;
  position_property_ : VectorProperty;
  base_ : ViewControllerBase
}.

Definition with_camera (c : Camera) (b : ViewControllerBase) : ViewControllerBase :=
  mkBase c (target_frame_property_ b) (reference_position_ b)
         (reference_orientation_ b) (target_scene_node_ b)
         (status_ b) (cursor_ b) (render_requests_ b) (transform_lookups_ b).

Definition with_scene_node (n : SceneNode) (b : ViewControllerBase) : ViewControllerBase :=
  mkBase (camera_ b) (target_frame_property_ b) (reference_position_ b)
         (reference_orientation_ b) n
         (status_ b) (cursor_ b) (render_requests_ b) (transform_lookups_ b).

Definition with_status (msg : string) (b : ViewControllerBase) : ViewControllerBase :=
  mkBase (camera_ b) (target_frame_property_ b) (reference_position_ b)
         (reference_orientation_ b) (target_scene_node_ b)
         msg (cursor_ b) (render_requests_ b) (transform_lookups_ b).

Definition with_cursor (c : CursorType) (b : ViewControllerBase) : ViewControllerBase :=
  mkBase (camera_ b) (target_frame_property_ b) (reference_position_ b)
         (reference_orientation_ b) (target_scene_node_ b)
         (status_ b) c (render_requests_ b) (transform_lookups_ b).

Definition with_render_request (b : ViewControllerBase) : ViewControllerBase :=
  mkBase (camera_ b) (target_frame_property_ b) (reference_position_ b)
         (reference_orientation_ b) (target_scene_node_ b)
         (status_ b) (cursor_ b) (S (render_requests_ b)) (transform_lookups_ b).

Definition with_transform_lookup (frame : string) (b : ViewControllerBase) : ViewControllerBase :=
  mkBase (camera_ b) (target_frame_property_ b) (reference_position_ b)
         (reference_orientation_ b) (target_scene_node_ b)
         (status_ b) (cursor_ b) (render_requests_ b) (frame :: transform_lookups_ b).

Definition with_yaw (p : FloatProperty) (s : FPSRollViewController) :=
  mkController p (pitch_property_ s) (roll_property_ s) (position_property_ s) (base_ s).
Definition with_pitch (p : FloatProperty) (s : FPSRollViewController) :=
  mkController (yaw_property_ s) p (roll_property_ s) (position_property_ s) (base_ s).
Definition with_roll (p : FloatProperty) (s : FPSRollViewController) :=
  mkController (yaw_property_ s) (pitch_property_ s) p (position_property_ s) (base_ s).
Definition with_position (p : VectorProperty) (s : FPSRollViewController) :=
  mkController (yaw_property_ s) (pitch_property_ s) (roll_property_ s) p (base_ s).
Definition with_base (b : ViewControllerBase) (s : FPSRollViewController) :=
  mkController (yaw_property_ s) (pitch_property_ s) (roll_property_ s)
               (position_property_ s) b.

Definition setStatus (msg : string) (s : FPSRollViewController) :=
  with_base (with_status msg (base_ s)) s.
Definition setCursor (c : CursorType) (s : FPSRollViewController) :=
  with_base (with_cursor c (base_ s)) s.
Definition queueRender (s : FPSRollViewController) :=
  with_base (with_render_request (base_ s)) s.
Definition setCamera (c : Camera) (s : FPSRollViewController) :=
  with_base (with_camera c (base_ s)) s.

(** ** The controller's methods (fps_roll_view_controller.cpp) *)

Definition ROBOT_TO_CAMERA_ROTATION : Quaternion :=
  qmul (FromAngleAxis (- HALF_PI) UNIT_Y) (FromAngleAxis (- HALF_PI) UNIT_Z).

Definition PITCH_LIMIT_LOW : R := - HALF_PI + 0.001.
Definition PITCH_LIMIT_HIGH : R := HALF_PI - 0.001.

(** The constructor creates the four properties; the inherited members are
    those of the base-class constructors, given here as [b]. *)
Definition FPSRollViewController_new (b : ViewControllerBase) : FPSRollViewController :=
  let yaw_property := newFloatProperty 0 in
  let pitch_property := newFloatProperty 0 in
  let pitch_property := setMax (HALF_PI - 0.001) pitch_property in
  let pitch_property :=
    match getMax pitch_property with
    | Some m => setMin (- m) pitch_property
    | None => pitch_property
    end in
  let roll_property := newFloatProperty 0 in
  let position_property := mkVector3 (-10) 0 1 in
  mkController yaw_property pitch_property roll_property position_property b.

Definition getOrientation (s : FPSRollViewController) : Quaternion :=
  let pitch := IDENTITY in
  let yaw := IDENTITY in
  let roll := IDENTITY in
  let pitch := FromAngleAxis (-1.57) UNIT_Y in
  let roll := FromAngleAxis 1.57 UNIT_X in
  qmul (qmul roll pitch) yaw.

Definition updateCamera (s : FPSRollViewController) : FPSRollViewController :=
  let s := setCamera (setOrientation (getOrientation s) (camera_ (base_ s))) s in
  setCamera (setPosition (getVector (position_property_ s)) (camera_ (base_ s))) s.

Definition yaw (angle : R) (s : FPSRollViewController) : FPSRollViewController :=
  with_yaw (setFloat (mapAngleTo0_2Pi (getFloat (yaw_property_ s) + angle))
                     (yaw_property_ s)) s.

Definition pitch (angle : R) (s : FPSRollViewController) : FPSRollViewController :=
  with_pitch (addFloat angle (pitch_property_ s)) s.

Definition roll (angle : R) (s : FPSRollViewController) : FPSRollViewController := s.

Definition move (x y z : R) (s : FPSRollViewController) : FPSRollViewController :=
  let translate := mkVector3 x y z in
  with_position (addVector (qrot (getOrientation s) translate) (position_property_ s)) s.

Definition setPropertiesFromCamera (source_camera : Camera)
    (s : FPSRollViewController) : FPSRollViewController :=
  let quat := qmul (orientation source_camera) (Inverse ROBOT_TO_CAMERA_ROTATION) in
  let yaw := getRoll quat in
  let pitch := getYaw quat in
  let direction := qrot quat NEGATIVE_UNIT_Z in
  let '(pitch, yaw) :=
    if Rlt_dec (dotProduct direction NEGATIVE_UNIT_Z) 0 then
      let pitch :=
        if Rlt_dec HALF_PI pitch then pitch - PI
        else if Rlt_dec pitch (- HALF_PI) then pitch + PI
        else pitch in
      let yaw := - yaw in
      let yaw :=
        if Rlt_dec (dotProduct direction UNIT_X) 0 then yaw - PI
        else yaw + PI in
      (pitch, yaw)
    else (pitch, yaw) in
  let s := with_pitch (setFloat pitch (pitch_property_ s)) s in
  let s := with_yaw (setFloat (mapAngleTo0_2Pi yaw) (yaw_property_ s)) s in
  with_position (setVector (position source_camera) (position_property_ s)) s.

Definition onTargetFrameChanged (old_reference_position : Vector3)
    (old_reference_orientation : Quaternion)
    (s : FPSRollViewController) : FPSRollViewController :=
  with_position
    (addVector (vsub old_reference_position (reference_position_ (base_ s)))
               (position_property_ s)) s.

Definition status_shift : string :=
  "<b>Left-Click:</b> Move X/Y.  <b>Right-Click:</b>: Move Z.".
Definition status_plain : string :=
  "<b>Left-Click:</b> Rotate.  <b>Middle-Click:</b> Move X/Y.  <b>Right-Click:</b>: Zoom.  <b>Shift</b>: More options.".

Definition handleMouseEvent (event : ViewportMouseEvent)
    (s : FPSRollViewController) : FPSRollViewController :=
  let s := if shift event then setStatus status_shift s
           else setStatus status_plain s in
  let moved := false in
  let diff_x := 0%Z in
  let diff_y := 0%Z in
  let '(diff_x, diff_y, moved) :=
    if is_MouseMove (type event)
    then ((x event - last_x event)%Z, (y event - last_y event)%Z, true)
    else (diff_x, diff_y, moved) in
  let s :=
    if left event && negb (shift event) then
      let s := setCursor Rotate3D s in
      let s := yaw (IZR (- diff_x) * 0.005) s in
      pitch (IZR diff_y * 0.005) s
    else if middle event || (shift event && left event) then
      let s := setCursor MoveXY s in
      move (IZR diff_x * 0.01) (IZR (- diff_y) * 0.01) 0 s
    else if right event then
      let s := setCursor MoveZ s in
      move 0 0 (IZR diff_y * 0.1) s
    else
      setCursor (if shift event then MoveXY else Rotate3D) s in
  let '(s, moved) :=
    if negb (Z.eqb (wheel_delta event) 0) then
      let diff := wheel_delta event in
      (move 0 0 (IZR (- diff) * 0.01) s, true)
    else (s, moved) in
  if moved then queueRender s else s.

(** ** Methods that call into collaborators outside this file *)

(** The result of FrameManager::getTransform for a frame at the latest
    time: [None] when it returns false, the out-parameters otherwise. *)
Definition FrameManager : Type := string -> option (Vector3 * Quaternion).

Section Collaborators.

(** Ogre::Camera::lookAt turns the camera and leaves its position; the
    orientation it computes depends on the camera, the node it is attached
    to and the target point. *)
Variable lookAt_orientation : SceneNode -> Camera -> Vector3 -> Quaternion.

Definition Camera_lookAt (node : SceneNode) (target : Vector3) (c : Camera) : Camera :=
  setOrientation (lookAt_orientation node c target) c.

(** Modelled from the spec: the base class
    FramePositionTrackingViewController is not part of the sources at hand.
    Its [update] refreshes the reference frame state it owns (spec §3), and
    its [mimic] copies base-controller shared state from another view
    controller (spec §4.1); neither reaches the four properties, which the
    base class does not know. *)
Variable FramePositionTrackingViewController_update :
  R -> R -> ViewControllerBase -> ViewControllerBase.

Variable ViewController : Type.
Variable getCamera : ViewController -> Camera.
Variable FramePositionTrackingViewController_mimic :
  ViewController -> ViewControllerBase -> ViewControllerBase.

Definition camera_lookAt (target : Vector3) (s : FPSRollViewController) :=
  setCamera (Camera_lookAt (target_scene_node_ (base_ s)) target (camera_ (base_ s))) s.

Definition reset (s : FPSRollViewController) : FPSRollViewController :=
  let s := setCamera (setPosition (mkVector3 (-10) 0 1) (camera_ (base_ s))) s in
  let s := camera_lookAt (mkVector3 0 0 0) s in
  let s := setPropertiesFromCamera (camera_ (base_ s)) s in
  let s := updateCamera s in
  let s := camera_lookAt (mkVector3 0 0 0) s in
  setPropertiesFromCamera (camera_ (base_ s)) s.

Definition lookAt (point : Vector3) (s : FPSRollViewController) : FPSRollViewController :=
  let s := camera_lookAt point s in
  setPropertiesFromCamera (camera_ (base_ s)) s.

Definition mimic (source_view : ViewController)
    (s : FPSRollViewController) : FPSRollViewController :=
  let s := with_base (FramePositionTrackingViewController_mimic source_view (base_ s)) s in
  setPropertiesFromCamera (getCamera source_view) s.

Definition update (frames : FrameManager) (dt ros_dt : R)
    (s : FPSRollViewController) : FPSRollViewController :=
  let s := with_base (FramePositionTrackingViewController_update dt ros_dt (base_ s)) s in
  let frame := target_frame_property_ (base_ s) in
  let s := with_base (with_transform_lookup frame (base_ s)) s in
  let got_transform := frames frame in
  let s := with_base
             (with_scene_node
                (mkSceneNode (node_position (target_scene_node_ (base_ s)))
                             (reference_orientation_ (base_ s)))
                (base_ s)) s in
  let s :=
    match got_transform with
    | Some (new_reference_position, new_reference_orientation) =>
        let target_roll := getRoll new_reference_orientation in
        let s := with_roll (setFloat target_roll (roll_property_ s)) s in
        let s := with_yaw (setFloat (getYaw new_reference_orientation)
                                    (yaw_property_ s)) s in
        with_pitch (setFloat (getPitch new_reference_orientation)
                             (pitch_property_ s)) s
    | None => s
    end in
  updateCamera s.

(** The public and protected entry points, as a call with its arguments. *)
Inductive Call : Type :=
| CallReset
| CallHandleMouseEvent (event : ViewportMouseEvent)
| CallSetPropertiesFromCamera (source_camera : Camera)
| CallMimic (source_view : ViewController)
| CallUpdate (frames : FrameManager) (dt ros_dt : R)
| CallLookAt (point : Vector3)
| CallOnTargetFrameChanged (old_position : Vector3) (old_orientation : Quaternion)
| CallUpdateCamera
| CallYaw (angle : R)
| CallPitch (angle : R)
| CallRoll (angle : R)
| CallMove (x y z : R).

Definition perform (c : Call) (s : FPSRollViewController) : FPSRollViewController :=
  match c with
  | CallReset => reset s
  | CallHandleMouseEvent event => handleMouseEvent event s
  | CallSetPropertiesFromCamera source_camera => setPropertiesFromCamera source_camera s
  | CallMimic source_view => mimic source_view s
  | CallUpdate frames dt ros_dt => update frames dt ros_dt s
  | CallLookAt point => lookAt point s
  | CallOnTargetFrameChanged p q => onTargetFrameChanged p q s
  | CallUpdateCamera => updateCamera s
  | CallYaw angle => yaw angle s
  | CallPitch angle => pitch angle s
  | CallRoll angle => roll angle s
  | CallMove x y z => move x y z s
  end.

(** The controller after a sequence of calls, oldest first. *)
Definition perform_all (calls : list Call) (s : FPSRollViewController) :=
  fold_left (fun st c => perform c st) calls s.

End Collaborators.

(** ** Vocabulary of the specification *)

(** The reverse extraction as the specification words it (§4.1.1): the
    orientation with the basis rotation removed, the two raw angles, the
    facing test and the branch correction. *)
Definition basis_removed (camera_orientation : Quaternion) : Quaternion :=
  qmul camera_orientation (Inverse ROBOT_TO_CAMERA_ROTATION).

Definition forward_direction (q : Quaternion) : Vector3 :=
  qrot q NEGATIVE_UNIT_Z.

(** Projections of a direction onto the world-forward axis (the camera's
    native forward, -Z) and onto the world lateral axis (X). *)
Definition forward_projection (d : Vector3) : R := - vz d.
Definition lateral_projection (d : Vector3) : R := vx d.

Definition fold_pitch (p : R) : R :=
  if Rlt_dec HALF_PI p then p - PI
  else if Rlt_dec p (- HALF_PI) then p + PI
  else p.

Definition corrected_yaw (d : Vector3) (raw_yaw : R) : R :=
  if Rlt_dec (lateral_projection d) 0 then - raw_yaw - PI else - raw_yaw + PI.

Definition extracted_pitch (camera_orientation : Quaternion) : R :=
  let q := basis_removed camera_orientation in
  if Rlt_dec (forward_projection (forward_direction q)) 0
  then fold_pitch (getYaw q) else getYaw q.

Definition extracted_yaw (camera_orientation : Quaternion) : R :=
  let q := basis_removed camera_orientation in
  if Rlt_dec (forward_projection (forward_direction q)) 0
  then corrected_yaw (forward_direction q) (getRoll q) else getRoll q.

(** The mouse dispatch as the specification words it (§4.1): four actions
    by precedence, with the primary, secondary and tertiary buttons being
    the left, middle and right ones, and an independent wheel dolly. *)
Inductive MouseAction : Type := Rotate | Pan | MoveAlongZ | NoAction.

Definition classify (event : ViewportMouseEvent) : MouseAction :=
  if left event && negb (shift event) then Rotate
  else if middle event || (left event && shift event) then Pan
  else if right event then MoveAlongZ
  else NoAction.

(** Pointer deltas: zero unless the event is a pointer move. *)
Definition dx (event : ViewportMouseEvent) : Z :=
  if is_MouseMove (type event) then (x event - last_x event)%Z else 0%Z.
Definition dy (event : ViewportMouseEvent) : Z :=
  if is_MouseMove (type event) then (y event - last_y event)%Z else 0%Z.

Definition button_action (event : ViewportMouseEvent)
    (s : FPSRollViewController) : FPSRollViewController :=
  match classify event with
  | Rotate => pitch (IZR (dy event) * 0.005) (yaw (- (IZR (dx event) * 0.005)) s)
  | Pan => move (IZR (dx event) * 0.01) (- (IZR (dy event) * 0.01)) 0 s
  | MoveAlongZ => move 0 0 (IZR (dy event) * 0.1) s
  | NoAction => s
  end.

Definition wheel_action (event : ViewportMouseEvent)
    (s : FPSRollViewController) : FPSRollViewController :=
  if Z.eqb (wheel_delta event) 0 then s
  else move 0 0 (- (IZR (wheel_delta event) * 0.01)) s.

Definition cursor_hint (event : ViewportMouseEvent) : CursorType :=
  match classify event with
  | Rotate => Rotate3D
  | Pan => MoveXY
  | MoveAlongZ => MoveZ
  | NoAction => if shift event then MoveXY else Rotate3D
  end.

(** The button-driven action of the event is a [move] by the zero vector. *)
Definition null_move (event : ViewportMouseEvent) : bool :=
  match classify event with
  | Pan => Z.eqb (dx event) 0 && Z.eqb (dy event) 0
  | MoveAlongZ => Z.eqb (dy event) 0
  | _ => false
  end.

(** The four properties, the pose the controller stores. *)
Definition properties (s : FPSRollViewController) :=
  (yaw_property_ s, pitch_property_ s, roll_property_ s, position_property_ s).

(** A float property holds a value within its own bounds. *)
Definition FloatProperty_wf (p : FloatProperty) : Prop :=
  match fp_min p with Some l => l <= fp_value p | None => True end /\
  match fp_max p with Some h => fp_value p <= h | None => True end.

Definition pitch_limited (s : FPSRollViewController) : Prop :=
  fp_min (pitch_property_ s) = Some PITCH_LIMIT_LOW /\
  fp_max (pitch_property_ s) = Some PITCH_LIMIT_HIGH /\
  PITCH_LIMIT_LOW <= getFloat (pitch_property_ s) <= PITCH_LIMIT_HIGH.

Definition yaw_wrapped (s : FPSRollViewController) : Prop :=
  0 <= getFloat (yaw_property_ s) < TWO_PI.

(** The forward transform applied to the current properties reproduces the
    camera's pose (spec §3). *)
Definition forward_consistent (s : FPSRollViewController) : Prop :=
  orientation (camera_ (base_ s)) = getOrientation s /\
  position (camera_ (base_ s)) = getVector (position_property_ s).

(** The camera's view direction points from its position to the target. *)
Definition looks_at (c : Camera) (target : Vector3) : Prop :=
  exists k : R, 0 < k /\
    forward_direction (orientation c) = vscale k (vsub target (position c)).

(** Sample data for the examples below. *)
Definition sample_base : ViewControllerBase :=
  mkBase (mkCamera ZERO IDENTITY) "map" ZERO IDENTITY
         (mkSceneNode ZERO IDENTITY) EmptyString Default 0 [].

Definition sample_controller : FPSRollViewController :=
  FPSRollViewController_new sample_base.

(** A pointer move one pixel to the right with only the right button held. *)
Definition right_drag_sideways : ViewportMouseEvent :=
  mkEvent MouseMove 1 0 0 0 0 false false true false.

(** A button press with the middle button, no pointer motion, no wheel. *)
Definition middle_press : ViewportMouseEvent :=
  mkEvent MouseButtonPress 5 5 5 5 0 false true false false.

(** A unit quaternion turning by a negative angle about the Y axis. *)
Definition nose_down : Quaternion := mkQuaternion (3/5) 0 (-4/5) 0.

(** A button press with the left button, no pointer motion, no wheel. *)
Definition left_press : ViewportMouseEvent :=
  mkEvent MouseButtonPress 5 5 5 5 0 true false false false.

(** A base-class update that finds nothing to refresh, and a frame manager
    that knows no transform. *)
Definition idle_base_update (dt ros_dt : R) (b : ViewControllerBase) :
  ViewControllerBase := b.
Definition no_transform : FrameManager := fun _ => None.

(** ** Further vocabulary *)

(** Ogre's Vector3::squaredLength. *)
Definition squaredLength (v : Vector3) : R := dotProduct v v.

(** The composition spelled out in the commented-out lines of
    [getOrientation]: yaw about Z, then pitch about Y, then the basis
    rotation (the return statement (yaw * pitch * ROBOT_TO_CAMERA_ROTATION),
    without the roll factor). *)
Definition intended_orientation (yaw_angle pitch_angle : R) : Quaternion :=
  qmul (qmul (FromAngleAxis yaw_angle UNIT_Z) (FromAngleAxis pitch_angle UNIT_Y))
       ROBOT_TO_CAMERA_ROTATION.

(** A call that ingests no transform: every call but an [update] tick whose
    frame manager knows a transform. *)
Definition transform_free {ViewController : Type} (c : Call ViewController) : Prop :=
  match c with
  | CallUpdate _ frames _ _ => forall frame, frames frame = None
  | _ => True
  end.

Definition nose_down_frames : FrameManager := fun _ => Some (ZERO, nose_down).

(** The yaw property has no bounds, as the constructor creates it. *)
Definition yaw_unbounded (s : FPSRollViewController) : Prop :=
  fp_min (yaw_property_ s) = None /\ fp_max (yaw_property_ s) = None.

(** Collaborators for the examples: a look-at that keeps the orientation,
    view controllers that are just their camera, a base class that copies
    nothing. *)
Definition lookAt_keep (node : SceneNode) (c : Camera) (target : Vector3) :
  Quaternion := orientation c.
Definition mimic_nothing (source_view : Camera) (b : ViewControllerBase) :
  ViewControllerBase := b.
Definition sample_calls : list (Call Camera) :=
  [CallYaw Camera 7; CallReset Camera;
   CallHandleMouseEvent Camera left_press;
   CallUpdate Camera no_transform 0.02 0.02;
   CallMimic Camera (mkCamera ZERO IDENTITY)].

(** A wheel turn of one notch (120 units) with no button held. *)
Definition wheel_notch : ViewportMouseEvent :=
  mkEvent Wheel 0 0 0 0 120 false false false false.

(** Ogre's lookAt contract at one camera position: called on a camera at
    [p], whatever its orientation and the node it is attached to, it leaves
    the camera looking at [target]. *)
Definition lookAt_points_at
    (lookAt_orientation : SceneNode -> Camera -> Vector3 -> Quaternion)
    (p target : Vector3) : Prop :=
  forall (node : SceneNode) (q : Quaternion),
    looks_at (Camera_lookAt lookAt_orientation node target (mkCamera p q)) target.

(** A look-at for the examples: the turn about Y by -atan 10, which points
    a camera at (-10, 0, 1) at the origin. *)
Definition lookAt_from_reset_position (node : SceneNode) (c : Camera)
    (target : Vector3) : Quaternion :=
  FromAngleAxis (- atan 10) UNIT_Y.

(** * Properties *)

(** ** Real-number facts *)

Lemma PI_bounds : 3.14159 < PI < 3.1416.
Proof.
  generalize (PI_2_3_7_ineq 3).
  unfold PI_2_3_7_tg, tg_alt, Ratan_seq.
  cbn [sum_f_R0 Nat.mul Nat.add pow INR].
  intros [Hlo Hhi]; split; lra.
Qed.

Lemma TWO_PI_pos : 0 < TWO_PI.
Proof. unfold TWO_PI; generalize PI_bounds; lra. Qed.

(** ** The angle wrap *)

Lemma mapAngleTo0_2Pi_range (angle : R) :
  0 <= mapAngleTo0_2Pi angle < TWO_PI.
Proof.
  unfold mapAngleTo0_2Pi.
  pose proof TWO_PI_pos as Hpos.
  pose proof (Zfloor_bound (angle / TWO_PI)) as [Hlo Hhi].
  set (n := IZR (Zfloor (angle / TWO_PI))) in *.
  assert (Heq : angle = angle / TWO_PI * TWO_PI) by (field; lra).
  split.
  - apply (Rmult_le_compat_r TWO_PI) in Hlo; lra.
  - apply (Rmult_lt_compat_r TWO_PI) in Hhi; lra.
Qed.

Lemma mapAngleTo0_2Pi_shift (angle : R) (n : Z) :
  0 <= angle - IZR n * TWO_PI < TWO_PI ->
  mapAngleTo0_2Pi angle = angle - IZR n * TWO_PI.
Proof.
  intros [Hlo Hhi]. unfold mapAngleTo0_2Pi.
  pose proof TWO_PI_pos as Hpos.
  rewrite (Zfloor_eq n); [reflexivity |].
  split.
  - apply (Rmult_le_reg_r TWO_PI); [assumption |].
    replace (angle / TWO_PI * TWO_PI) with angle by (field; lra). lra.
  - apply (Rmult_lt_reg_r TWO_PI); [assumption |].
    replace (angle / TWO_PI * TWO_PI) with angle by (field; lra). lra.
Qed.

Lemma mapAngleTo0_2Pi_id (angle : R) :
  0 <= angle < TWO_PI -> mapAngleTo0_2Pi angle = angle.
Proof.
  intros H. rewrite (mapAngleTo0_2Pi_shift angle 0); lra.
Qed.

(** ** Float properties *)

Lemma saturate_unbounded (v : R) : saturate None None v = v.
Proof. reflexivity. Qed.

Lemma saturate_between (l h v : R) :
  l <= h -> l <= saturate (Some l) (Some h) v <= h.
Proof.
  intros Hlh. unfold saturate, Rmax, Rmin.
  repeat destruct Rle_dec; lra.
Qed.

Lemma saturate_clamp (l h v : R) :
  saturate (Some l) (Some h) v = Rmax l (Rmin h v).
Proof. reflexivity. Qed.

Lemma saturate_wf (p : FloatProperty) :
  FloatProperty_wf p -> saturate (fp_min p) (fp_max p) (fp_value p) = fp_value p.
Proof.
  unfold FloatProperty_wf, saturate.
  destruct (fp_min p), (fp_max p); intros [Hlo Hhi];
    unfold Rmax, Rmin; repeat destruct Rle_dec; lra.
Qed.

Lemma setFloat_same (p : FloatProperty) :
  FloatProperty_wf p -> setFloat (fp_value p) p = p.
Proof.
  intros H. unfold setFloat. rewrite (saturate_wf p H). destruct p; reflexivity.
Qed.

Lemma addFloat_zero (p : FloatProperty) :
  FloatProperty_wf p -> addFloat 0 p = p.
Proof.
  intros H. unfold addFloat, getFloat.
  replace (0 + fp_value p) with (fp_value p) by ring.
  apply setFloat_same; assumption.
Qed.

(** ** Quaternions *)

Lemma Inverse_cancel_r (q r : Quaternion) :
  0 < Norm r -> qmul (qmul q (Inverse r)) r = q.
Proof.
  intros Hn. unfold Inverse. destruct (Rlt_dec 0 (Norm r)) as [_ | Hc]; [| contradiction].
  destruct q as [w1 x1 y1 z1], r as [w2 x2 y2 z2].
  unfold Norm in *; cbn in *.
  unfold qmul; cbn. f_equal; field; lra.
Qed.

Lemma Norm_FromAngleAxis_UNIT (a : R) (axis : Vector3) :
  dotProduct axis axis = 1 -> Norm (FromAngleAxis a axis) = 1.
Proof.
  intros Hax. unfold Norm, FromAngleAxis; cbn.
  pose proof (sin2_cos2 (0.5 * a)) as H. unfold Rsqr in H.
  unfold dotProduct in Hax.
  transitivity (cos (0.5 * a) * cos (0.5 * a) +
                sin (0.5 * a) * sin (0.5 * a) *
                (vx axis * vx axis + vy axis * vy axis + vz axis * vz axis)).
  - ring.
  - rewrite Hax. lra.
Qed.

Lemma Norm_qmul (p q : Quaternion) : Norm (qmul p q) = Norm p * Norm q.
Proof. destruct p, q; unfold Norm, qmul; cbn; ring. Qed.

Lemma Norm_ROBOT_TO_CAMERA_ROTATION : Norm ROBOT_TO_CAMERA_ROTATION = 1.
Proof.
  unfold ROBOT_TO_CAMERA_ROTATION.
  rewrite Norm_qmul, !Norm_FromAngleAxis_UNIT; unfold dotProduct; cbn; ring.
Qed.

Lemma qrot_ZERO (q : Quaternion) : qrot q (mkVector3 0 0 0) = mkVector3 0 0 0.
Proof.
  unfold qrot, vadd, vscale, crossProduct; cbn. f_equal; ring.
Qed.

Lemma addVector_ZERO (p : VectorProperty) : addVector (mkVector3 0 0 0) p = p.
Proof.
  destruct p; unfold addVector, vadd; cbn. f_equal; ring.
Qed.

Lemma move_zero (s : FPSRollViewController) : move 0 0 0 s = s.
Proof.
  unfold move. rewrite qrot_ZERO, addVector_ZERO. destruct s; reflexivity.
Qed.

(** ** Reverse extraction *)

Lemma forward_projection_dot (d : Vector3) :
  dotProduct d NEGATIVE_UNIT_Z = forward_projection d.
Proof. unfold dotProduct, forward_projection; cbn; ring. Qed.

Lemma lateral_projection_dot (d : Vector3) :
  dotProduct d UNIT_X = lateral_projection d.
Proof. unfold dotProduct, lateral_projection; cbn; ring. Qed.

(** C1. [setPropertiesFromCamera] removes the robot-to-camera basis
    rotation by right-multiplying with its inverse (multiplying the basis
    back gives the camera orientation again), takes yaw from the native
    roll angle and pitch from the native yaw angle of the result, applies
    the branch correction exactly when the forward direction projects
    negatively onto the world-forward axis (pitch folded by π across ±π/2,
    yaw negated and shifted by -π or +π by the sign of the lateral
    projection), wraps yaw into [0, 2π), and writes pitch, the wrapped yaw
    and the camera's raw position into their properties; roll and the
    inherited members are untouched. *)
Theorem setPropertiesFromCamera_extraction
    (source_camera : Camera) (s : FPSRollViewController) :
  let q := basis_removed (orientation source_camera) in
  let d := forward_direction q in
  let s' := setPropertiesFromCamera source_camera s in
  qmul q ROBOT_TO_CAMERA_ROTATION = orientation source_camera /\
  extracted_pitch (orientation source_camera) =
    (if Rlt_dec (forward_projection d) 0 then fold_pitch (getYaw q) else getYaw q) /\
  extracted_yaw (orientation source_camera) =
    (if Rlt_dec (forward_projection d) 0
     then (if Rlt_dec (lateral_projection d) 0
           then - getRoll q - PI else - getRoll q + PI)
     else getRoll q) /\
  pitch_property_ s' =
    setFloat (extracted_pitch (orientation source_camera)) (pitch_property_ s) /\
  yaw_property_ s' =
    setFloat (mapAngleTo0_2Pi (extracted_yaw (orientation source_camera)))
             (yaw_property_ s) /\
  0 <= mapAngleTo0_2Pi (extracted_yaw (orientation source_camera)) < TWO_PI /\
  position_property_ s' = position source_camera /\
  roll_property_ s' = roll_property_ s /\
  base_ s' = base_ s.
Proof.
  intros q d s'.
  split.
  { apply Inverse_cancel_r. rewrite Norm_ROBOT_TO_CAMERA_ROTATION; lra. }
  split; [reflexivity |].
  split; [reflexivity |].
  assert (Hbranch :
    (pitch_property_ s', yaw_property_ s') =
    (setFloat (extracted_pitch (orientation source_camera)) (pitch_property_ s),
     setFloat (mapAngleTo0_2Pi (extracted_yaw (orientation source_camera)))
              (yaw_property_ s)) /\
    position_property_ s' = position source_camera /\
    roll_property_ s' = roll_property_ s /\ base_ s' = base_ s).
  { subst s'. unfold setPropertiesFromCamera, extracted_pitch, extracted_yaw,
      corrected_yaw, fold_pitch.
    fold (basis_removed (orientation source_camera)).
    fold (forward_direction (basis_removed (orientation source_camera))).
    rewrite forward_projection_dot, lateral_projection_dot.
    destruct (Rlt_dec (forward_projection _) 0); cbn; auto. }
  destruct Hbranch as (Hpy & Hpos & Hroll & Hbase).
  injection Hpy as Hp Hy.
  repeat split; auto; apply mapAngleTo0_2Pi_range.
Qed.

(** ** The forward transform *)

Lemma half_angle_neg : 0.5 * -1.57 = - (0.5 * 1.57).
Proof. lra. Qed.

Lemma getOrientation_components (s : FPSRollViewController) :
  let c := cos (0.5 * 1.57) in
  let sn := sin (0.5 * 1.57) in
  getOrientation s = mkQuaternion (c * c) (sn * c) (- (c * sn)) (- (sn * sn)).
Proof.
  intros c sn. unfold getOrientation, qmul, FromAngleAxis; cbn.
  rewrite half_angle_neg, cos_neg, sin_neg. fold c sn.
  f_equal; ring.
Qed.

Lemma cos_sin_half_157 :
  let c := cos (0.5 * 1.57) in
  let sn := sin (0.5 * 1.57) in
  0 < sn /\ sn < c /\ 0 < cos (PI / 4) < c.
Proof.
  cbn zeta. pose proof PI_bounds as [Hlo Hhi].
  assert (Hs : 0 < sin (0.5 * 1.57)) by (apply sin_gt_0; lra).
  assert (Hc : cos (PI / 4) < cos (0.5 * 1.57)).
  { apply cos_decreasing_1; lra. }
  assert (Hsc : sin (0.5 * 1.57) < sin (PI / 4)).
  { apply sin_increasing_1; lra. }
  assert (Hp : 0 < cos (PI / 4)) by (apply cos_gt_0; lra).
  rewrite sin_PI4 in Hsc. rewrite cos_PI4 in Hc.
  rewrite cos_PI4 in *.
  repeat split; lra.
Qed.

Lemma half_right_angle :
  0.5 * HALF_PI = PI / 4 /\ 0.5 * - HALF_PI = - (PI / 4).
Proof. unfold HALF_PI; split; lra. Qed.

Lemma right_angle_composition_w :
  qw (qmul (FromAngleAxis HALF_PI UNIT_X) (FromAngleAxis (- HALF_PI) UNIT_Y))
    = cos (PI / 4) * cos (PI / 4) /\
  qw (qmul (FromAngleAxis (- HALF_PI) UNIT_Y) (FromAngleAxis HALF_PI UNIT_X))
    = cos (PI / 4) * cos (PI / 4).
Proof.
  unfold qmul, FromAngleAxis; cbn.
  destruct half_right_angle as [-> ->]. rewrite cos_neg, sin_neg. split; ring.
Qed.

(** The view direction of the constant orientation leans to +Y. *)
Lemma getOrientation_forward_y (s : FPSRollViewController) :
  0 < vy (forward_direction (getOrientation s)).
Proof.
  rewrite getOrientation_components.
  pose proof cos_sin_half_157 as (Hs & Hsc & _). cbn zeta in *.
  unfold forward_direction, qrot, vadd, vscale, crossProduct; cbn.
  set (c := cos (0.5 * 1.57)) in *. set (sn := sin (0.5 * 1.57)) in *.
  assert (Hc : 0 < c) by lra.
  assert (Hd : 0 < c * c - sn * sn) by nra.
  assert (Hm : 0 < c * sn) by nra.
  assert (Hpos : 0 < 2 * (c * sn) * (c * c - sn * sn)) by nra.
  match goal with
  | |- 0 < ?e => replace e with (2 * (c * sn) * (c * c - sn * sn)) by ring
  end.
  exact Hpos.
Qed.

(** C2 (as stated, refuted). The constant that [getOrientation] returns is
    not the composition of an exact +90° turn about X and an exact -90°
    turn about Y, in either order: the code turns by 1.57 rad, not π/2. *)
Lemma getOrientation_not_right_angles :
  getOrientation sample_controller <>
    qmul (FromAngleAxis HALF_PI UNIT_X) (FromAngleAxis (- HALF_PI) UNIT_Y) /\
  getOrientation sample_controller <>
    qmul (FromAngleAxis (- HALF_PI) UNIT_Y) (FromAngleAxis HALF_PI UNIT_X).
Proof.
  pose proof cos_sin_half_157 as (_ & _ & Hp & Hc). cbn zeta in *.
  split; intros H; apply (f_equal qw) in H;
    rewrite getOrientation_components in H; cbn [qw] in H;
    [rewrite (proj1 right_angle_composition_w) in H
    | rewrite (proj2 right_angle_composition_w) in H]; nra.
Qed.

(** C2 (amended). For all values of the yaw, pitch and roll properties
    [getOrientation] returns one and the same quaternion: the composition
    of a fixed turn by +1.57 rad about X (lateral) with a fixed turn by
    -1.57 rad about Y (up); the angles are within 0.001 rad of ±90° but
    differ from them. *)
Theorem getOrientation_constant (s1 s2 : FPSRollViewController) :
  getOrientation s1 = getOrientation s2 /\
  getOrientation s1 =
    qmul (FromAngleAxis 1.57 UNIT_X) (FromAngleAxis (-1.57) UNIT_Y) /\
  HALF_PI - 0.001 < 1.57 < HALF_PI.
Proof.
  split; [reflexivity |]. split.
  - unfold getOrientation, qmul, FromAngleAxis, IDENTITY; cbn. f_equal; ring.
  - unfold HALF_PI. pose proof PI_bounds. lra.
Qed.

(** ** Mouse events *)

Lemma IZR_opp_scaled (d : Z) (k : R) : IZR (- d) * k = - (IZR d * k).
Proof. rewrite opp_IZR; ring. Qed.

(** [handleMouseEvent] in stages: status, cursor hint, button action, wheel
    dolly, render request. *)
Lemma handleMouseEvent_stages (event : ViewportMouseEvent) (s : FPSRollViewController) :
  handleMouseEvent event s =
    let s1 := setStatus (if shift event then status_shift else status_plain) s in
    let s2 := setCursor (cursor_hint event) s1 in
    let s3 := wheel_action event (button_action event s2) in
    if is_MouseMove (type event) || negb (Z.eqb (wheel_delta event) 0)
    then queueRender s3 else s3.
Proof.
  unfold handleMouseEvent, wheel_action, button_action, cursor_hint, classify, dx, dy.
  destruct (is_MouseMove (type event)), (shift event), (left event),
    (middle event), (right event), (Z.eqb (wheel_delta event) 0);
    cbn -[Z.sub Z.opp IZR Rmult]; rewrite ?IZR_opp_scaled; reflexivity.
Qed.

Lemma button_action_with_base (event : ViewportMouseEvent)
    (b : ViewControllerBase) (s : FPSRollViewController) :
  button_action event (with_base b s) = with_base b (button_action event s).
Proof. unfold button_action; destruct (classify event); reflexivity. Qed.

Lemma wheel_action_with_base (event : ViewportMouseEvent)
    (b : ViewControllerBase) (s : FPSRollViewController) :
  wheel_action event (with_base b s) = with_base b (wheel_action event s).
Proof. unfold wheel_action; destruct (Z.eqb _ 0); reflexivity. Qed.

Lemma button_action_base (event : ViewportMouseEvent) (s : FPSRollViewController) :
  base_ (button_action event s) = base_ s.
Proof. unfold button_action; destruct (classify event); reflexivity. Qed.

Lemma wheel_action_base (event : ViewportMouseEvent) (s : FPSRollViewController) :
  base_ (wheel_action event s) = base_ s.
Proof. unfold wheel_action; destruct (Z.eqb _ 0); reflexivity. Qed.

Lemma handleMouseEvent_properties (event : ViewportMouseEvent) (s : FPSRollViewController) :
  properties (handleMouseEvent event s) =
  properties (wheel_action event (button_action event s)).
Proof.
  rewrite handleMouseEvent_stages. cbv zeta.
  unfold setCursor, setStatus.
  rewrite !button_action_with_base, !wheel_action_with_base.
  destruct (is_MouseMove (type event) || negb (Z.eqb (wheel_delta event) 0));
    reflexivity.
Qed.

Lemma handleMouseEvent_base (event : ViewportMouseEvent) (s : FPSRollViewController) :
  base_ (handleMouseEvent event s) =
    let b := with_cursor (cursor_hint event)
               (with_status (if shift event then status_shift else status_plain)
                            (base_ s)) in
    if is_MouseMove (type event) || negb (Z.eqb (wheel_delta event) 0)
    then with_render_request b else b.
Proof.
  rewrite handleMouseEvent_stages. cbv zeta.
  destruct (is_MouseMove (type event) || negb (Z.eqb (wheel_delta event) 0));
    unfold queueRender; cbn [base_ with_base];
    rewrite wheel_action_base, button_action_base; reflexivity.
Qed.

(** C6. Every mouse event is classified into exactly one of four actions,
    by precedence: left button without shift rotates, yaw(-dx·0.005) then
    pitch(dy·0.005); otherwise middle button, or left with shift, pans,
    move(dx·0.01, -dy·0.01, 0); otherwise right button moves along local Z,
    move(0, 0, dy·0.1); otherwise the pose is left alone and only the
    cursor hint is set.  Independently a nonzero wheel delta adds
    move(0, 0, -wheel·0.01) after the button action.  The stored pose after
    the event is the one these two steps give; the camera is not touched. *)
Theorem handleMouseEvent_dispatch (event : ViewportMouseEvent) (s : FPSRollViewController) :
  let s' := handleMouseEvent event s in
  properties s' = properties (wheel_action event (button_action event s)) /\
  button_action event s =
    (if left event && negb (shift event) then
       pitch (IZR (dy event) * 0.005) (yaw (- (IZR (dx event) * 0.005)) s)
     else if middle event || (left event && shift event) then
       move (IZR (dx event) * 0.01) (- (IZR (dy event) * 0.01)) 0 s
     else if right event then
       move 0 0 (IZR (dy event) * 0.1) s
     else s) /\
  (forall t, wheel_action event t =
     if Z.eqb (wheel_delta event) 0 then t
     else move 0 0 (- (IZR (wheel_delta event) * 0.01)) t) /\
  cursor_ (base_ s') =
    (if left event && negb (shift event) then Rotate3D
     else if middle event || (left event && shift event) then MoveXY
     else if right event then MoveZ
     else if shift event then MoveXY else Rotate3D) /\
  camera_ (base_ s') = camera_ (base_ s).
Proof.
  intros s'. subst s'.
  split; [apply handleMouseEvent_properties |].
  split.
  { unfold button_action, classify.
    destruct (left event && negb (shift event)),
      (middle event || (left event && shift event)), (right event); reflexivity. }
  split; [reflexivity |].
  rewrite handleMouseEvent_base. cbv zeta.
  split.
  - unfold cursor_hint, classify.
    destruct (is_MouseMove (type event) || negb (Z.eqb (wheel_delta event) 0)),
      (left event && negb (shift event)),
      (middle event || (left event && shift event)), (right event); reflexivity.
  - destruct (is_MouseMove (type event) || negb (Z.eqb (wheel_delta event) 0));
      reflexivity.
Qed.

Lemma null_move_button_action (event : ViewportMouseEvent) (s : FPSRollViewController) :
  null_move event = true -> button_action event s = s.
Proof.
  unfold null_move, button_action.
  destruct (classify event); try discriminate; intros H.
  - apply andb_prop in H as [Hx Hy].
    apply Z.eqb_eq in Hx, Hy. rewrite Hx, Hy.
    replace (IZR 0 * 0.01) with 0 by lra.
    replace (- 0) with 0 by lra. apply move_zero.
  - apply Z.eqb_eq in H. rewrite H.
    replace (IZR 0 * 0.1) with 0 by lra. apply move_zero.
Qed.

(** C7 (as stated, refuted). Dragging the pointer sideways with the right
    button held: the button action is move(0, 0, 0), the wheel delta is
    zero and the position stays, yet a render is requested. *)
Lemma right_drag_sideways_renders :
  null_move right_drag_sideways = true /\
  wheel_delta right_drag_sideways = 0%Z /\
  position_property_ (handleMouseEvent right_drag_sideways sample_controller) =
    position_property_ sample_controller /\
  render_requests_ (base_ (handleMouseEvent right_drag_sideways sample_controller)) <>
    render_requests_ (base_ sample_controller).
Proof.
  split; [reflexivity |]. split; [reflexivity |]. split.
  - pose proof (handleMouseEvent_properties right_drag_sideways sample_controller) as H.
    rewrite (null_move_button_action right_drag_sideways) in H by reflexivity.
    unfold wheel_action in H; cbn [wheel_delta right_drag_sideways Z.eqb] in H.
    apply (f_equal snd) in H. exact H.
  - rewrite handleMouseEvent_base. cbn. discriminate.
Qed.

(** C7 (amended). A render is requested exactly when the event is a
    pointer move or carries a nonzero wheel delta, hence only if it was a
    pointer move, a button action or a wheel action with nonzero delta.  A
    call whose button action reduces to move(0, 0, 0) and whose wheel delta
    is zero leaves the position property unchanged; it requests no render
    when the event is not a pointer move, and one render when it is. *)
Theorem handleMouseEvent_render (event : ViewportMouseEvent) (s : FPSRollViewController) :
  let s' := handleMouseEvent event s in
  render_requests_ (base_ s') =
    (if is_MouseMove (type event) || negb (Z.eqb (wheel_delta event) 0)
     then S (render_requests_ (base_ s)) else render_requests_ (base_ s)) /\
  (null_move event = true -> wheel_delta event = 0%Z ->
   position_property_ s' = position_property_ s /\
   render_requests_ (base_ s') =
     (if is_MouseMove (type event)
      then S (render_requests_ (base_ s)) else render_requests_ (base_ s))).
Proof.
  intros s'. subst s'.
  assert (Hr : render_requests_ (base_ (handleMouseEvent event s)) =
    (if is_MouseMove (type event) || negb (Z.eqb (wheel_delta event) 0)
     then S (render_requests_ (base_ s)) else render_requests_ (base_ s))).
  { rewrite handleMouseEvent_base. cbv zeta.
    destruct (is_MouseMove (type event) || negb (Z.eqb (wheel_delta event) 0));
      reflexivity. }
  split; [exact Hr |].
  intros Hnull Hwheel. split.
  - pose proof (handleMouseEvent_properties event s) as H.
    rewrite (null_move_button_action event s Hnull) in H.
    unfold wheel_action in H. rewrite Hwheel in H. cbn [Z.eqb] in H.
    apply (f_equal snd) in H. exact H.
  - rewrite Hr, Hwheel. cbn [Z.eqb negb]. rewrite orb_false_r. reflexivity.
Qed.

Lemma yaw_zero (s : FPSRollViewController) :
  yaw (- (IZR 0 * 0.005)) s =
    with_yaw (setFloat (mapAngleTo0_2Pi (getFloat (yaw_property_ s)))
                       (yaw_property_ s)) s.
Proof.
  unfold yaw.
  replace (getFloat (yaw_property_ s) + - (IZR 0 * 0.005))
    with (getFloat (yaw_property_ s)) by lra.
  reflexivity.
Qed.

Lemma pitch_zero (s : FPSRollViewController) :
  FloatProperty_wf (pitch_property_ s) -> pitch (IZR 0 * 0.005) s = s.
Proof.
  intros Hwf. unfold pitch.
  replace (IZR 0 * 0.005) with 0 by lra.
  rewrite addFloat_zero by exact Hwf. destruct s; reflexivity.
Qed.

(** C10. An event that is not a pointer move and has a zero wheel delta
    requests no render and leaves the position, pitch and roll properties
    as they were (a pitch property holds a value within its bounds, which
    adding zero keeps); yaw is rewritten with its own wrapped value in the
    left-button branch and so is unchanged when it lies in [0, 2π); of the
    inherited members only the status text and the cursor shape change. *)
Theorem handleMouseEvent_still (event : ViewportMouseEvent) (s : FPSRollViewController) :
  is_MouseMove (type event) = false ->
  wheel_delta event = 0%Z ->
  FloatProperty_wf (pitch_property_ s) ->
  let s' := handleMouseEvent event s in
  render_requests_ (base_ s') = render_requests_ (base_ s) /\
  position_property_ s' = position_property_ s /\
  pitch_property_ s' = pitch_property_ s /\
  roll_property_ s' = roll_property_ s /\
  yaw_property_ s' =
    (if left event && negb (shift event)
     then setFloat (mapAngleTo0_2Pi (getFloat (yaw_property_ s))) (yaw_property_ s)
     else yaw_property_ s) /\
  (FloatProperty_wf (yaw_property_ s) -> yaw_wrapped s ->
   yaw_property_ s' = yaw_property_ s) /\
  base_ s' =
    with_cursor (cursor_hint event)
      (with_status (if shift event then status_shift else status_plain) (base_ s)).
Proof.
  intros Hmove Hwheel Hwf s'. subst s'.
  pose proof (handleMouseEvent_properties event s) as Hp.
  pose proof (handleMouseEvent_base event s) as Hb.
  rewrite Hmove, Hwheel in Hb. cbn in Hb.
  unfold wheel_action in Hp. rewrite Hwheel in Hp. cbn [Z.eqb] in Hp.
  assert (Hbutton : button_action event s =
    if left event && negb (shift event)
    then with_yaw (setFloat (mapAngleTo0_2Pi (getFloat (yaw_property_ s)))
                            (yaw_property_ s)) s
    else s).
  { unfold button_action, classify, dx, dy. rewrite Hmove.
    destruct (left event && negb (shift event)).
    - rewrite yaw_zero. apply pitch_zero. exact Hwf.
    - destruct (middle event || (left event && shift event)).
      + replace (IZR 0 * 0.01) with 0 by lra. replace (- 0) with 0 by lra.
        apply move_zero.
      + destruct (right event); [| reflexivity].
        replace (IZR 0 * 0.1) with 0 by lra. apply move_zero. }
  rewrite Hbutton in Hp.
  pose proof (f_equal (fun p => fst (fst (fst p))) Hp) as Hyaw.
  pose proof (f_equal (fun p => snd (fst (fst p))) Hp) as Hpitch.
  pose proof (f_equal (fun p => snd (fst p)) Hp) as Hroll.
  pose proof (f_equal snd Hp) as Hpos.
  cbn [properties fst snd] in Hyaw, Hpitch, Hroll, Hpos.
  assert (Hyaw' : yaw_property_ (handleMouseEvent event s) =
    (if left event && negb (shift event)
     then setFloat (mapAngleTo0_2Pi (getFloat (yaw_property_ s))) (yaw_property_ s)
     else yaw_property_ s)).
  { rewrite Hyaw. destruct (left event && negb (shift event)); reflexivity. }
  repeat split.
  - rewrite Hb. reflexivity.
  - rewrite Hpos. destruct (left event && negb (shift event)); reflexivity.
  - rewrite Hpitch. destruct (left event && negb (shift event)); reflexivity.
  - rewrite Hroll. destruct (left event && negb (shift event)); reflexivity.
  - exact Hyaw'.
  - intros Hywf Hwrapped. rewrite Hyaw'.
    destruct (left event && negb (shift event)); [| reflexivity].
    rewrite mapAngleTo0_2Pi_id by exact Hwrapped.
    apply setFloat_same; exact Hywf.
  - exact Hb.
Qed.

(** ** Reset, update and mimic *)

Section CollaboratorProperties.

Variable lookAt_orientation : SceneNode -> Camera -> Vector3 -> Quaternion.
Variable base_update : R -> R -> ViewControllerBase -> ViewControllerBase.
Variable ViewController : Type.
Variable getCamera : ViewController -> Camera.
Variable base_mimic : ViewController -> ViewControllerBase -> ViewControllerBase.

Local Abbreviation reset' := (reset lookAt_orientation).
Local Abbreviation lookAt' := (lookAt lookAt_orientation).
Local Abbreviation update' := (update base_update).
Local Abbreviation mimic' := (mimic ViewController getCamera base_mimic).
Local Abbreviation perform' :=
  (perform lookAt_orientation base_update ViewController getCamera base_mimic).
Local Abbreviation perform_all' :=
  (perform_all lookAt_orientation base_update ViewController getCamera base_mimic).

Lemma setPropertiesFromCamera_base (c : Camera) (s : FPSRollViewController) :
  base_ (setPropertiesFromCamera c s) = base_ s.
Proof. unfold setPropertiesFromCamera. destruct (Rlt_dec _ 0); reflexivity. Qed.

Lemma setPropertiesFromCamera_position (c : Camera) (s : FPSRollViewController) :
  position_property_ (setPropertiesFromCamera c s) = position c.
Proof. unfold setPropertiesFromCamera. destruct (Rlt_dec _ 0); reflexivity. Qed.

Lemma setPropertiesFromCamera_pitch (c : Camera) (s : FPSRollViewController) :
  exists v, pitch_property_ (setPropertiesFromCamera c s) = setFloat v (pitch_property_ s).
Proof.
  unfold setPropertiesFromCamera. destruct (Rlt_dec _ 0); eexists; reflexivity.
Qed.

Lemma setPropertiesFromCamera_yaw (c : Camera) (s : FPSRollViewController) :
  exists v, yaw_property_ (setPropertiesFromCamera c s) =
            setFloat (mapAngleTo0_2Pi v) (yaw_property_ s).
Proof.
  unfold setPropertiesFromCamera. destruct (Rlt_dec _ 0); eexists; reflexivity.
Qed.

Lemma setFloat_idempotent (v : R) (p : FloatProperty) :
  setFloat v (setFloat v p) = setFloat v p.
Proof. reflexivity. Qed.

(** Reverse extraction from the same camera twice is the same as once. *)
Lemma setPropertiesFromCamera_idempotent (c : Camera) (s : FPSRollViewController) :
  setPropertiesFromCamera c (setPropertiesFromCamera c s) = setPropertiesFromCamera c s.
Proof.
  unfold setPropertiesFromCamera.
  destruct (Rlt_dec _ 0); reflexivity.
Qed.

Lemma reset_camera (s : FPSRollViewController) :
  camera_ (base_ (reset' s)) =
    Camera_lookAt lookAt_orientation (target_scene_node_ (base_ s))
      (mkVector3 0 0 0)
      (mkCamera (mkVector3 (-10) 0 1) (getOrientation s)).
Proof.
  unfold reset. rewrite setPropertiesFromCamera_base.
  unfold camera_lookAt at 1. unfold setCamera at 1. cbn [base_ with_base camera_ with_camera].
  unfold updateCamera.
  cbn [base_ with_base camera_ with_camera setCamera target_scene_node_ position_property_].
  rewrite !setPropertiesFromCamera_base, setPropertiesFromCamera_position.
  reflexivity.
Qed.

Lemma reset_position_property (s : FPSRollViewController) :
  position_property_ (reset' s) = mkVector3 (-10) 0 1.
Proof.
  unfold reset at 1. rewrite setPropertiesFromCamera_position.
  fold (reset' s).
  change (position (camera_ (base_ (camera_lookAt lookAt_orientation (mkVector3 0 0 0)
            (updateCamera ?t))))) with (position_property_ t).
  apply setPropertiesFromCamera_position.
Qed.

Lemma updateCamera_camera (s : FPSRollViewController) :
  camera_ (base_ (updateCamera s)) =
    mkCamera (getVector (position_property_ s)) (getOrientation s).
Proof. reflexivity. Qed.

Lemma looks_at_level (c : Camera) (target : Vector3) :
  looks_at c target -> vy target = vy (position c) ->
  vy (forward_direction (orientation c)) = 0.
Proof.
  intros (k & _ & Hk) Hy. rewrite Hk. unfold vscale, vsub; cbn. rewrite Hy. ring.
Qed.

(** C3 (evaluated at the failing call). After [reset] the camera and the
    position property are at (-10, 0, 1); pushing the forward transform of
    the properties into the camera gives a camera that does not look at
    the origin, so it cannot reproduce a camera that does: a camera that
    looks at the origin after [reset] is not the one the forward transform
    computes from the properties. *)
Theorem reset_forward_transform_mismatch (s : FPSRollViewController) :
  let s' := reset' s in
  position (camera_ (base_ s')) = mkVector3 (-10) 0 1 /\
  getVector (position_property_ s') = mkVector3 (-10) 0 1 /\
  ~ looks_at (camera_ (base_ (updateCamera s'))) (mkVector3 0 0 0) /\
  ~ (looks_at (camera_ (base_ s')) (mkVector3 0 0 0) /\ forward_consistent s').
Proof.
  intros s'. subst s'.
  split; [rewrite reset_camera; reflexivity |].
  split; [apply reset_position_property |].
  split.
  - intros Hl. apply looks_at_level in Hl.
    + rewrite updateCamera_camera in Hl. cbn [orientation] in Hl.
      pose proof (getOrientation_forward_y (reset' s)). lra.
    + rewrite updateCamera_camera. unfold getVector.
      rewrite reset_position_property. reflexivity.
  - intros [Hl [Ho _]]. apply looks_at_level in Hl.
    + rewrite Ho in Hl.
      pose proof (getOrientation_forward_y (reset' s)). lra.
    + rewrite reset_camera. reflexivity.
Qed.

(** [reset] is the double pass: place the camera at (-10, 0, 1), point it
    at the origin, extract the properties, apply the forward transform,
    point at the origin again and extract again.  It leaves the camera at
    (-10, 0, 1) with the orientation that the look-at gives from there, and
    extracting again from that camera changes nothing. *)
Lemma reset_pose (s : FPSRollViewController) :
  let origin := mkVector3 0 0 0 in
  let extract t := setPropertiesFromCamera (camera_ (base_ t)) t in
  let point t := camera_lookAt lookAt_orientation origin t in
  let place t := setCamera (setPosition (mkVector3 (-10) 0 1) (camera_ (base_ t))) t in
  let s' := reset' s in
  s' = extract (point (updateCamera (extract (point (place s))))) /\
  position (camera_ (base_ s')) = mkVector3 (-10) 0 1 /\
  camera_ (base_ s') =
    Camera_lookAt lookAt_orientation (target_scene_node_ (base_ s)) origin
      (mkCamera (mkVector3 (-10) 0 1) (getOrientation s)) /\
  getVector (position_property_ s') = position (camera_ (base_ s')) /\
  extract s' = s'.
Proof.
  intros origin extract point place s'. subst s' extract point place origin.
  split; [reflexivity |].
  split; [rewrite reset_camera; reflexivity |].
  split; [apply reset_camera |].
  split.
  - unfold getVector. rewrite reset_position_property, reset_camera. reflexivity.
  - unfold reset. cbv beta zeta.
    match goal with
    | |- setPropertiesFromCamera (camera_ (base_ (setPropertiesFromCamera ?c ?t))) _ = _ =>
        rewrite (setPropertiesFromCamera_base c t)
    end.
    apply setPropertiesFromCamera_idempotent.
Qed.

Lemma update_properties (frames : FrameManager) (dt ros_dt : R)
    (s : FPSRollViewController) :
  let b := base_update dt ros_dt (base_ s) in
  properties (update' frames dt ros_dt s) =
    match frames (target_frame_property_ b) with
    | Some (_, new_reference_orientation) =>
        (setFloat (getYaw new_reference_orientation) (yaw_property_ s),
         setFloat (getPitch new_reference_orientation) (pitch_property_ s),
         setFloat (getRoll new_reference_orientation) (roll_property_ s),
         position_property_ s)
    | None => properties s
    end.
Proof.
  cbv zeta. unfold update. cbn [base_ with_base target_frame_property_ with_transform_lookup].
  destruct (frames (target_frame_property_ (base_update dt ros_dt (base_ s))))
    as [[p q] |]; reflexivity.
Qed.

Lemma update_base (frames : FrameManager) (dt ros_dt : R)
    (s : FPSRollViewController) :
  let b := base_update dt ros_dt (base_ s) in
  base_ (update' frames dt ros_dt s) =
    with_camera (mkCamera (getVector (position_property_ s)) (getOrientation s))
      (with_scene_node
         (mkSceneNode (node_position (target_scene_node_ b)) (reference_orientation_ b))
         (with_transform_lookup (target_frame_property_ b) b)).
Proof.
  cbv zeta. unfold update. cbn [base_ with_base target_frame_property_ with_transform_lookup].
  destruct (frames (target_frame_property_ (base_update dt ros_dt (base_ s))))
    as [[p q] |]; reflexivity.
Qed.

(** C8. A tick of [update] in which the transform lookup finds nothing
    leaves the roll, yaw and pitch properties (and the position) as they
    were, puts the stored reference orientation on the tracked scene node
    and leaves the stored reference pose itself alone, still recomputes the
    camera from the current properties, and asks for the transform once:
    the tick completes with a state, there is no retry and no error
    result. *)
Theorem update_without_transform (frames : FrameManager) (dt ros_dt : R)
    (s : FPSRollViewController) :
  let b := base_update dt ros_dt (base_ s) in
  frames (target_frame_property_ b) = None ->
  let s' := update' frames dt ros_dt s in
  roll_property_ s' = roll_property_ s /\
  yaw_property_ s' = yaw_property_ s /\
  pitch_property_ s' = pitch_property_ s /\
  position_property_ s' = position_property_ s /\
  node_orientation (target_scene_node_ (base_ s')) = reference_orientation_ b /\
  reference_orientation_ (base_ s') = reference_orientation_ b /\
  reference_position_ (base_ s') = reference_position_ b /\
  camera_ (base_ s') =
    mkCamera (getVector (position_property_ s')) (getOrientation s') /\
  transform_lookups_ (base_ s') = target_frame_property_ b :: transform_lookups_ b /\
  render_requests_ (base_ s') = render_requests_ b.
Proof.
  intros b Hnone s'. subst s'.
  pose proof (update_properties frames dt ros_dt s) as Hp.
  pose proof (update_base frames dt ros_dt s) as Hb.
  cbv zeta in Hp, Hb. fold b in Hp, Hb. rewrite Hnone in Hp.
  pose proof (f_equal (fun p => fst (fst (fst p))) Hp) as Hyaw.
  pose proof (f_equal (fun p => snd (fst (fst p))) Hp) as Hpitch.
  pose proof (f_equal (fun p => snd (fst p)) Hp) as Hroll.
  pose proof (f_equal snd Hp) as Hpos.
  cbn [properties fst snd] in Hyaw, Hpitch, Hroll, Hpos.
  rewrite Hb, Hpos.
  repeat split; assumption.
Qed.

Lemma asin_negative (v : R) : -1 < v < 0 -> asin v < 0.
Proof.
  intros [Hlo Hhi].
  replace v with (- - v) by ring. rewrite asin_opp.
  assert (Hpos : 0 < asin (- v)).
  { rewrite asin_atan by lra. rewrite <- atan_0. apply atan_increasing.
    apply Rdiv_lt_0_compat; [lra |].
    apply sqrt_lt_R0. unfold Rsqr. nra. }
  lra.
Qed.

Lemma getYaw_nose_down : getYaw nose_down = asin (- (24 / 25)).
Proof. unfold getYaw, ASin, nose_down; cbn. f_equal. field. Qed.

(** C4 (evaluated at the failing call). A freshly constructed controller
    has yaw 0, inside [0, 2π).  One [update] tick whose transform lookup
    answers with an orientation of negative native yaw (here the unit
    quaternion (3/5, 0, -4/5, 0)) stores that yaw unwrapped: the yaw
    property is asin(-24/25), a negative number, outside [0, 2π). *)
Theorem update_yaw_unwrapped (b : ViewControllerBase) (frame_position : Vector3)
    (dt ros_dt : R) :
  let s := FPSRollViewController_new b in
  let s' := update' (fun _ => Some (frame_position, nose_down)) dt ros_dt s in
  yaw_wrapped s /\
  getFloat (yaw_property_ s') = asin (- (24 / 25)) /\
  getFloat (yaw_property_ s') < 0 /\
  ~ yaw_wrapped s'.
Proof.
  intros s s'.
  assert (Hy : getFloat (yaw_property_ s') = asin (- (24 / 25))).
  { subst s'.
    pose proof (update_properties (fun _ => Some (frame_position, nose_down))
                  dt ros_dt s) as Hp.
    cbv zeta beta in Hp.
    apply (f_equal (fun p => fst (fst (fst p)))) in Hp.
    cbn [properties fst snd] in Hp. rewrite Hp.
    subst s. cbn. apply getYaw_nose_down. }
  assert (Hneg : asin (- (24 / 25)) < 0) by (apply asin_negative; lra).
  split.
  - subst s. unfold yaw_wrapped; cbn. pose proof TWO_PI_pos. lra.
  - split; [exact Hy |]. split; [lra |].
    unfold yaw_wrapped. lra.
Qed.

(** After [update] the camera is the forward transform of the properties. *)
Lemma update_forward_consistent (frames : FrameManager) (dt ros_dt : R)
    (s : FPSRollViewController) :
  forward_consistent (update' frames dt ros_dt s).
Proof.
  unfold forward_consistent.
  pose proof (f_equal snd (update_properties frames dt ros_dt s)) as Hpos.
  cbv zeta in Hpos. cbn [properties snd] in Hpos.
  rewrite update_base. cbv zeta.
  cbn [camera_ with_camera orientation position].
  split; [reflexivity |].
  rewrite Hpos. destruct (frames _) as [[p q] |]; reflexivity.
Qed.

(** [mimic] extracts the properties from the source view's camera; a source
    camera with the identity orientation is not what the forward transform
    of the extracted properties gives. *)
Lemma mimic_orientation_not_reproduced (source_view : ViewController)
    (s : FPSRollViewController) :
  orientation (getCamera source_view) = IDENTITY ->
  getOrientation (mimic' source_view s) <> orientation (getCamera source_view).
Proof.
  intros Hid Heq. rewrite Hid in Heq. apply (f_equal qw) in Heq.
  rewrite getOrientation_components in Heq. cbn [qw IDENTITY] in Heq.
  pose proof cos_sin_half_157 as (Hs & Hsc & _). cbn zeta in *.
  pose proof (sin2_cos2 (0.5 * 1.57)) as Hone. unfold Rsqr in Hone.
  nra.
Qed.

(** ** The pitch limits *)

Lemma pitch_limited_new (b : ViewControllerBase) :
  pitch_limited (FPSRollViewController_new b).
Proof.
  unfold pitch_limited, FPSRollViewController_new, PITCH_LIMIT_LOW, PITCH_LIMIT_HIGH,
    HALF_PI; cbn.
  pose proof PI_bounds as [Hlo Hhi].
  split; [f_equal; ring |]. split; [reflexivity |].
  unfold Rmax, Rmin; repeat destruct Rle_dec; lra.
Qed.

Lemma pitch_limits_ordered : PITCH_LIMIT_LOW <= PITCH_LIMIT_HIGH.
Proof.
  unfold PITCH_LIMIT_LOW, PITCH_LIMIT_HIGH, HALF_PI. pose proof PI_bounds. lra.
Qed.

Lemma pitch_limited_keep (s t : FPSRollViewController) :
  pitch_property_ t = pitch_property_ s -> pitch_limited s -> pitch_limited t.
Proof. unfold pitch_limited. intros ->. trivial. Qed.

Lemma pitch_limited_setFloat (v : R) (s t : FPSRollViewController) :
  pitch_property_ t = setFloat v (pitch_property_ s) ->
  pitch_limited s -> pitch_limited t.
Proof.
  unfold pitch_limited. intros -> (Hmin & Hmax & _).
  unfold setFloat, getFloat; cbn. rewrite Hmin, Hmax.
  repeat split; try apply saturate_between; apply pitch_limits_ordered.
Qed.

Lemma pitch_limited_setPropertiesFromCamera (c : Camera) (s : FPSRollViewController) :
  pitch_limited s -> pitch_limited (setPropertiesFromCamera c s).
Proof.
  destruct (setPropertiesFromCamera_pitch c s) as [v Hv].
  apply (pitch_limited_setFloat v); exact Hv.
Qed.

Lemma pitch_limited_button_action (event : ViewportMouseEvent) (s : FPSRollViewController) :
  pitch_limited s -> pitch_limited (button_action event s).
Proof.
  intros H. unfold button_action. destruct (classify event).
  - apply (pitch_limited_setFloat
             (IZR (dy event) * 0.005 + getFloat (pitch_property_ s)) s);
      [reflexivity | exact H].
  - apply (pitch_limited_keep s); [reflexivity | exact H].
  - apply (pitch_limited_keep s); [reflexivity | exact H].
  - exact H.
Qed.

Lemma pitch_limited_wheel_action (event : ViewportMouseEvent) (s : FPSRollViewController) :
  pitch_limited s -> pitch_limited (wheel_action event s).
Proof.
  intros H. unfold wheel_action. destruct (Z.eqb _ 0); [exact H |].
  apply (pitch_limited_keep s); [reflexivity | exact H].
Qed.

Lemma pitch_limited_handleMouseEvent (event : ViewportMouseEvent) (s : FPSRollViewController) :
  pitch_limited s -> pitch_limited (handleMouseEvent event s).
Proof.
  intros H.
  apply (pitch_limited_keep (wheel_action event (button_action event s))).
  - exact (f_equal (fun p => snd (fst (fst p))) (handleMouseEvent_properties event s)).
  - apply pitch_limited_wheel_action, pitch_limited_button_action, H.
Qed.

Lemma pitch_limited_reset (s : FPSRollViewController) :
  pitch_limited s -> pitch_limited (reset' s).
Proof.
  intros H. unfold reset.
  apply pitch_limited_setPropertiesFromCamera.
  apply (pitch_limited_keep
           (setPropertiesFromCamera
              (camera_ (base_ (camera_lookAt lookAt_orientation (mkVector3 0 0 0)
                 (setCamera (setPosition (mkVector3 (-10) 0 1) (camera_ (base_ s))) s))))
              (camera_lookAt lookAt_orientation (mkVector3 0 0 0)
                 (setCamera (setPosition (mkVector3 (-10) 0 1) (camera_ (base_ s))) s))));
    [reflexivity |].
  apply pitch_limited_setPropertiesFromCamera.
  apply (pitch_limited_keep s); [reflexivity | exact H].
Qed.

Lemma pitch_limited_update (frames : FrameManager) (dt ros_dt : R)
    (s : FPSRollViewController) :
  pitch_limited s -> pitch_limited (update' frames dt ros_dt s).
Proof.
  intros H.
  pose proof (f_equal (fun p => snd (fst (fst p)))
                (update_properties frames dt ros_dt s)) as Hp.
  cbv zeta beta in Hp.
  destruct (frames _) as [[p q] |]; cbn [properties fst snd] in Hp.
  - apply (pitch_limited_setFloat (getPitch q) s); assumption.
  - apply (pitch_limited_keep s); assumption.
Qed.

Lemma pitch_limited_perform (c : Call ViewController) (s : FPSRollViewController) :
  pitch_limited s -> pitch_limited (perform' c s).
Proof.
  intros H. destruct c; cbn [perform].
  - apply pitch_limited_reset, H.
  - apply pitch_limited_handleMouseEvent, H.
  - apply pitch_limited_setPropertiesFromCamera, H.
  - unfold mimic. apply pitch_limited_setPropertiesFromCamera.
    apply (pitch_limited_keep s); [reflexivity | exact H].
  - apply pitch_limited_update, H.
  - unfold lookAt. apply pitch_limited_setPropertiesFromCamera.
    apply (pitch_limited_keep s); [reflexivity | exact H].
  - apply (pitch_limited_keep s); [reflexivity | exact H].
  - apply (pitch_limited_keep s); [reflexivity | exact H].
  - apply (pitch_limited_keep s); [reflexivity | exact H].
  - apply (pitch_limited_setFloat (angle + getFloat (pitch_property_ s)) s);
      [reflexivity | exact H].
  - exact H.
  - apply (pitch_limited_keep s); [reflexivity | exact H].
Qed.

Lemma pitch_limited_perform_all (calls : list (Call ViewController)) (s : FPSRollViewController) :
  pitch_limited s -> pitch_limited (perform_all' calls s).
Proof.
  revert s. induction calls as [| c calls IH]; intros s H; cbn.
  - exact H.
  - apply IH, pitch_limited_perform, H.
Qed.

(** C5. Whatever calls the controller has served since its construction,
    the pitch property lies between -π/2+0.001 and π/2-0.001; every set
    and every add stores the requested value saturated at these bounds;
    and from pitch 1.5, pitch(+10) stores exactly π/2-0.001. *)
Theorem pitch_always_limited (calls : list (Call ViewController)) (b : ViewControllerBase)
    (angle value : R) :
  let s := perform_all' calls (FPSRollViewController_new b) in
  let s15 := pitch 1.5 (FPSRollViewController_new b) in
  - HALF_PI + 0.001 <= getFloat (pitch_property_ s) <= HALF_PI - 0.001 /\
  getFloat (pitch_property_ (pitch angle s)) =
    Rmax (- HALF_PI + 0.001)
         (Rmin (HALF_PI - 0.001) (angle + getFloat (pitch_property_ s))) /\
  getFloat (setFloat value (pitch_property_ s)) =
    Rmax (- HALF_PI + 0.001) (Rmin (HALF_PI - 0.001) value) /\
  getFloat (pitch_property_ s15) = 1.5 /\
  getFloat (pitch_property_ (pitch 10 s15)) = HALF_PI - 0.001.
Proof.
  intros s s15.
  assert (Hs : pitch_limited s).
  { apply pitch_limited_perform_all, pitch_limited_new. }
  destruct Hs as (Hmin & Hmax & Hrange).
  unfold PITCH_LIMIT_LOW, PITCH_LIMIT_HIGH in *.
  split; [exact Hrange |].
  split; [unfold pitch, addFloat, setFloat, getFloat; cbn; rewrite Hmin, Hmax; reflexivity |].
  split; [unfold setFloat, getFloat; cbn; rewrite Hmin, Hmax; reflexivity |].
  pose proof PI_bounds as [Hlo Hhi].
  subst s15. unfold pitch, addFloat, setFloat, getFloat, FPSRollViewController_new,
    saturate, HALF_PI; cbn.
  unfold Rmax, Rmin.
  split; repeat destruct Rle_dec; lra.
Qed.

(** ** Where yaw is wrapped *)

Lemma setFloat_unbounded (v : R) (p : FloatProperty) :
  fp_min p = None -> fp_max p = None -> getFloat (setFloat v p) = v.
Proof. unfold setFloat, getFloat; cbn. intros -> ->. reflexivity. Qed.

(** The increment helper and the reverse extraction store a wrapped yaw;
    the yaw property is created without bounds and with value 0. *)
Lemma yaw_writers_wrap (b : ViewControllerBase) (angle : R) (c : Camera)
    (s : FPSRollViewController) :
  fp_min (yaw_property_ s) = None -> fp_max (yaw_property_ s) = None ->
  yaw_wrapped (FPSRollViewController_new b) /\
  yaw_wrapped (yaw angle s) /\
  yaw_wrapped (setPropertiesFromCamera c s).
Proof.
  intros Hmin Hmax. unfold yaw_wrapped. split; [| split].
  - cbn. pose proof TWO_PI_pos. lra.
  - unfold yaw; cbn [yaw_property_ with_yaw].
    rewrite setFloat_unbounded by assumption. apply mapAngleTo0_2Pi_range.
  - destruct (setPropertiesFromCamera_yaw c s) as [v ->].
    rewrite setFloat_unbounded by assumption. apply mapAngleTo0_2Pi_range.
Qed.

(** From yaw 6.0, yaw(1.0) stores 7 - 2π, about 0.7168. *)
Lemma yaw_wraparound_example (b : ViewControllerBase) :
  let s6 := yaw 6 (FPSRollViewController_new b) in
  getFloat (yaw_property_ s6) = 6 /\
  getFloat (yaw_property_ (yaw 1 s6)) = 7 - TWO_PI /\
  0.7168 < getFloat (yaw_property_ (yaw 1 s6)) < 0.7169.
Proof.
  pose proof PI_bounds as [Hlo Hhi].
  assert (H6 : getFloat (yaw_property_ (yaw 6 (FPSRollViewController_new b))) = 6).
  { unfold yaw; cbn. replace (0 + 6) with 6 by ring.
    apply mapAngleTo0_2Pi_id. unfold TWO_PI; lra. }
  assert (H7 : getFloat (yaw_property_ (yaw 1 (yaw 6 (FPSRollViewController_new b))))
               = 7 - TWO_PI).
  { unfold yaw at 1. cbn [yaw_property_ with_yaw].
    rewrite setFloat_unbounded by reflexivity. rewrite H6.
    replace (6 + 1) with 7 by ring.
    rewrite (mapAngleTo0_2Pi_shift 7 1); unfold TWO_PI; lra. }
  cbv zeta. split; [exact H6 |]. split; [exact H7 |].
  rewrite H7. unfold TWO_PI. lra.
Qed.

End CollaboratorProperties.

(** ** Instances of the conditional statements *)

(** C10 at a left-button press on a freshly constructed controller. *)
Lemma handleMouseEvent_still_witness :
  is_MouseMove (type left_press) = false /\
  wheel_delta left_press = 0%Z /\
  FloatProperty_wf (pitch_property_ sample_controller) /\
  render_requests_ (base_ (handleMouseEvent left_press sample_controller)) =
    render_requests_ (base_ sample_controller) /\
  position_property_ (handleMouseEvent left_press sample_controller) =
    position_property_ sample_controller /\
  pitch_property_ (handleMouseEvent left_press sample_controller) =
    pitch_property_ sample_controller /\
  roll_property_ (handleMouseEvent left_press sample_controller) =
    roll_property_ sample_controller.
Proof.
  assert (Hwf : FloatProperty_wf (pitch_property_ sample_controller)).
  { unfold FloatProperty_wf; cbn. unfold HALF_PI, Rmax, Rmin.
    pose proof PI_bounds. repeat destruct Rle_dec; lra. }
  pose proof (handleMouseEvent_still left_press sample_controller
                eq_refl eq_refl Hwf) as H.
  cbv zeta in H.
  destruct H as (H1 & H2 & H3 & H4 & _).
  split; [reflexivity |]. split; [reflexivity |]. split; [exact Hwf |].
  split; [exact H1 |]. split; [exact H2 |]. split; [exact H3 | exact H4].
Defined.

(** C7 (amended) at a middle-button press without motion or wheel. *)
Lemma handleMouseEvent_render_witness :
  null_move middle_press = true /\
  wheel_delta middle_press = 0%Z /\
  position_property_ (handleMouseEvent middle_press sample_controller) =
    position_property_ sample_controller /\
  render_requests_ (base_ (handleMouseEvent middle_press sample_controller)) =
    render_requests_ (base_ sample_controller).
Proof.
  pose proof (proj2 (handleMouseEvent_render middle_press sample_controller)
                eq_refl eq_refl) as [Hp Hr].
  split; [reflexivity |]. split; [reflexivity |].
  split; [exact Hp | exact Hr].
Defined.

(** C8 at a tick on a freshly constructed controller with no transform. *)
Lemma update_without_transform_witness :
  no_transform
    (target_frame_property_ (idle_base_update 0.02 0.02 (base_ sample_controller))) = None /\
  roll_property_ (update idle_base_update no_transform 0.02 0.02 sample_controller) =
    roll_property_ sample_controller /\
  yaw_property_ (update idle_base_update no_transform 0.02 0.02 sample_controller) =
    yaw_property_ sample_controller /\
  pitch_property_ (update idle_base_update no_transform 0.02 0.02 sample_controller) =
    pitch_property_ sample_controller /\
  node_orientation (target_scene_node_
      (base_ (update idle_base_update no_transform 0.02 0.02 sample_controller))) =
    reference_orientation_ (base_ sample_controller) /\
  transform_lookups_
      (base_ (update idle_base_update no_transform 0.02 0.02 sample_controller)) =
    ["map"%string].
Proof.
  pose proof (update_without_transform idle_base_update no_transform
                0.02 0.02 sample_controller eq_refl) as H.
  cbv zeta in H.
  destruct H as (H1 & H2 & H3 & _ & H5 & _ & _ & _ & H9 & _).
  split; [reflexivity |]. split; [exact H1 |]. split; [exact H2 |].
  split; [exact H3 |]. split; [exact H5 | exact H9].
Defined.

(** * Further properties *)

(** ** Moving *)

Lemma qrot_add (q : Quaternion) (u v : Vector3) :
  qrot q (vadd u v) = vadd (qrot q u) (qrot q v).
Proof.
  destruct q, u, v. unfold qrot, vadd, vscale, crossProduct; cbn. f_equal; ring.
Qed.

Lemma qrot_squaredLength (q : Quaternion) (v : Vector3) :
  squaredLength (qrot q v) =
    squaredLength v +
    4 * (Norm q - 1) *
      squaredLength (crossProduct (mkVector3 (qx q) (qy q) (qz q)) v).
Proof.
  destruct q, v.
  unfold squaredLength, dotProduct, qrot, vadd, vscale, crossProduct, Norm; cbn.
  ring.
Qed.

Lemma Norm_getOrientation (s : FPSRollViewController) : Norm (getOrientation s) = 1.
Proof.
  unfold getOrientation.
  rewrite !Norm_qmul, !Norm_FromAngleAxis_UNIT; unfold dotProduct, IDENTITY, Norm; cbn; ring.
Qed.

Lemma move_add (x1 y1 z1 x2 y2 z2 : R) (s : FPSRollViewController) :
  move x2 y2 z2 (move x1 y1 z1 s) = move (x1 + x2) (y1 + y2) (z1 + z2) s.
Proof.
  unfold move; cbn [position_property_ with_position].
  unfold with_position; cbn. f_equal.
  change (getOrientation _) with (getOrientation s).
  change (mkVector3 (x1 + x2) (y1 + y2) (z1 + z2))
    with (vadd (mkVector3 x1 y1 z1) (mkVector3 x2 y2 z2)).
  rewrite qrot_add. unfold addVector.
  destruct (position_property_ s), (qrot (getOrientation s) (mkVector3 x1 y1 z1)),
    (qrot (getOrientation s) (mkVector3 x2 y2 z2)).
  unfold vadd; cbn. f_equal; ring.
Qed.

Lemma move_eq (x y z x' y' z' : R) (s : FPSRollViewController) :
  x = x' -> y = y' -> z = z' -> move x y z s = move x' y' z' s.
Proof. intros -> -> ->. reflexivity. Qed.

(** X1. Moves add up: two moves in a row are one move by the sum of the
    two local vectors, so moves commute. *)
Theorem move_compose (x1 y1 z1 x2 y2 z2 : R) (s : FPSRollViewController) :
  move x2 y2 z2 (move x1 y1 z1 s) = move (x1 + x2) (y1 + y2) (z1 + z2) s /\
  move x2 y2 z2 (move x1 y1 z1 s) = move x1 y1 z1 (move x2 y2 z2 s).
Proof.
  split; [apply move_add |].
  rewrite !move_add. apply move_eq; ring.
Qed.

(** X2. A move displaces the position property by a vector exactly as long
    as the local vector (x, y, z): the constant orientation is a unit
    quaternion, hence a rotation. The angle properties, the property bounds
    and the inherited members are untouched. *)
Theorem move_distance (x y z : R) (s : FPSRollViewController) :
  squaredLength (vsub (position_property_ (move x y z s)) (position_property_ s)) =
    x * x + y * y + z * z /\
  yaw_property_ (move x y z s) = yaw_property_ s /\
  pitch_property_ (move x y z s) = pitch_property_ s /\
  roll_property_ (move x y z s) = roll_property_ s /\
  base_ (move x y z s) = base_ s.
Proof.
  split; [| repeat split; reflexivity].
  unfold move; cbn [position_property_ with_position].
  assert (Hd : vsub (addVector (qrot (getOrientation s) (mkVector3 x y z))
                               (position_property_ s)) (position_property_ s)
               = qrot (getOrientation s) (mkVector3 x y z)).
  { unfold addVector. destruct (position_property_ s), (qrot _ _).
    unfold vsub, vadd; cbn. f_equal; ring. }
  rewrite Hd, qrot_squaredLength, Norm_getOrientation.
  unfold squaredLength at 1, dotProduct; cbn. ring.
Qed.

(** ** Moving along and across the view direction *)

Lemma qrot_dotProduct (q : Quaternion) (u v : Vector3) :
  dotProduct (qrot q u) (qrot q v) =
    dotProduct u v +
    4 * (Norm q - 1) *
      dotProduct (crossProduct (mkVector3 (qx q) (qy q) (qz q)) u)
                 (crossProduct (mkVector3 (qx q) (qy q) (qz q)) v).
Proof.
  destruct q, u, v.
  unfold dotProduct, qrot, vadd, vscale, crossProduct, Norm; cbn. ring.
Qed.

Lemma move_displacement (x y z : R) (s : FPSRollViewController) :
  vsub (position_property_ (move x y z s)) (position_property_ s) =
    qrot (getOrientation s) (mkVector3 x y z).
Proof.
  unfold move; cbn [position_property_ with_position]. unfold addVector.
  destruct (position_property_ s), (qrot _ _).
  unfold vsub, vadd; cbn. f_equal; ring.
Qed.

(** X3. The component of a move along the view direction of the constant
    orientation is -z: a pan, move(x, y, 0), displaces the position at a
    right angle to the view direction, and move(0, 0, z) displaces it by
    -z times the view direction. *)
Theorem move_along_view (x y z : R) (s : FPSRollViewController) :
  dotProduct (vsub (position_property_ (move x y z s)) (position_property_ s))
             (forward_direction (getOrientation s)) = - z /\
  vsub (position_property_ (move 0 0 z s)) (position_property_ s) =
    vscale (- z) (forward_direction (getOrientation s)).
Proof.
  rewrite !move_displacement. unfold forward_direction. split.
  - rewrite qrot_dotProduct, Norm_getOrientation.
    unfold dotProduct, NEGATIVE_UNIT_Z; cbn. ring.
  - destruct (getOrientation s).
    unfold qrot, vadd, vscale, crossProduct, NEGATIVE_UNIT_Z; cbn. f_equal; ring.
Qed.

(** X4. With no button action, turning the wheel dollies along the view
    direction: the position property advances by wheel·0.01 times the view
    direction of the constant orientation, forward for a positive delta. *)
Theorem wheel_dolly_forward (event : ViewportMouseEvent) (s : FPSRollViewController) :
  classify event = NoAction ->
  position_property_ (handleMouseEvent event s) =
    vadd (position_property_ s)
         (vscale (IZR (wheel_delta event) * 0.01)
                 (forward_direction (getOrientation s))).
Proof.
  intros Hc.
  pose proof (f_equal snd (handleMouseEvent_properties event s)) as Hp.
  cbn [properties snd] in Hp. rewrite Hp.
  unfold wheel_action, button_action. rewrite Hc.
  destruct (Z.eqb_spec (wheel_delta event) 0) as [Hw | Hw].
  - rewrite Hw. destruct (position_property_ s), (forward_direction _).
    unfold vadd, vscale; cbn. f_equal; lra.
  - unfold move; cbn [position_property_ with_position]. unfold addVector, forward_direction.
    destruct (position_property_ s), (getOrientation s).
    unfold qrot, vadd, vscale, crossProduct, NEGATIVE_UNIT_Z; cbn. f_equal; ring.
Qed.

(** ** Turning *)

Lemma mapAngleTo0_2Pi_add (a b : R) :
  mapAngleTo0_2Pi (mapAngleTo0_2Pi a + b) = mapAngleTo0_2Pi (a + b).
Proof.
  pose proof (mapAngleTo0_2Pi_range (a + b)) as Hr.
  unfold mapAngleTo0_2Pi at 2.
  unfold mapAngleTo0_2Pi at 2 in Hr.
  unfold mapAngleTo0_2Pi at 2.
  set (n := Zfloor (a / TWO_PI)). set (m := Zfloor ((a + b) / TWO_PI)) in *.
  rewrite (mapAngleTo0_2Pi_shift _ (m - n)).
  - rewrite minus_IZR. ring.
  - rewrite minus_IZR.
    replace (a - IZR n * TWO_PI + b - (IZR m - IZR n) * TWO_PI)
      with (a + b - IZR m * TWO_PI) by ring.
    exact Hr.
Qed.

Lemma mapAngleTo0_2Pi_period (a : R) (k : Z) :
  mapAngleTo0_2Pi (a + IZR k * TWO_PI) = mapAngleTo0_2Pi a.
Proof.
  pose proof (mapAngleTo0_2Pi_range a) as Hr.
  unfold mapAngleTo0_2Pi at 2. unfold mapAngleTo0_2Pi in Hr.
  set (n := Zfloor (a / TWO_PI)) in *.
  rewrite (mapAngleTo0_2Pi_shift _ (n + k)).
  - rewrite plus_IZR. ring.
  - rewrite plus_IZR.
    replace (a + IZR k * TWO_PI - (IZR n + IZR k) * TWO_PI)
      with (a - IZR n * TWO_PI) by ring.
    exact Hr.
Qed.

(** X5. With the yaw property unbounded, as the constructor creates it:
    yaw increments add up modulo 2π; a whole number of turns changes
    nothing more than the wrap itself; and on a yaw already in [0, 2π),
    turning by an angle and back restores the controller. *)
Theorem yaw_compose (a b : R) (k : Z) (s : FPSRollViewController) :
  yaw_unbounded s ->
  yaw b (yaw a s) = yaw (a + b) s /\
  yaw (a + IZR k * TWO_PI) s = yaw a s /\
  (yaw_wrapped s -> yaw (- a) (yaw a s) = s).
Proof.
  intros [Hmin Hmax].
  assert (Hc : forall c d, yaw d (yaw c s) = yaw (c + d) s).
  { intros c d. unfold yaw at 1. unfold yaw at 3. unfold yaw at 1.
    cbn [yaw_property_ with_yaw].
    rewrite setFloat_unbounded by assumption.
    rewrite mapAngleTo0_2Pi_add.
    replace (getFloat (yaw_property_ s) + c + d)
      with (getFloat (yaw_property_ s) + (c + d)) by ring.
    unfold yaw, with_yaw; cbn. reflexivity. }
  split; [apply Hc |]. split.
  - unfold yaw.
    replace (getFloat (yaw_property_ s) + (a + IZR k * TWO_PI))
      with (getFloat (yaw_property_ s) + a + IZR k * TWO_PI) by ring.
    rewrite mapAngleTo0_2Pi_period. reflexivity.
  - intros Hw. rewrite Hc. unfold yaw.
    replace (getFloat (yaw_property_ s) + (a + - a))
      with (getFloat (yaw_property_ s)) by ring.
    rewrite mapAngleTo0_2Pi_id by exact Hw.
    destruct s as [[v lo hi] p r pos b0]; cbn in *. subst lo hi. reflexivity.
Qed.

(** X6. Within the limits the pitch increment is an exact addition, and
    undone by the opposite increment; in general a larger increment never
    gives a smaller pitch. *)
Theorem pitch_exact_within_limits (a b : R) (s : FPSRollViewController) :
  pitch_limited s ->
  (PITCH_LIMIT_LOW <= getFloat (pitch_property_ s) + a <= PITCH_LIMIT_HIGH ->
   getFloat (pitch_property_ (pitch a s)) = getFloat (pitch_property_ s) + a /\
   pitch (- a) (pitch a s) = s) /\
  (a <= b ->
   getFloat (pitch_property_ (pitch a s)) <= getFloat (pitch_property_ (pitch b s))).
Proof.
  intros (Hmin & Hmax & Hrange).
  pose proof pitch_limits_ordered as Hord.
  destruct s as [y [v lo hi] r pos b0]; cbn in *. subst lo hi.
  unfold pitch, addFloat, setFloat, saturate, getFloat; cbn.
  split.
  - intros Hin.
    assert (H1 : Rmax PITCH_LIMIT_LOW (Rmin PITCH_LIMIT_HIGH (a + v)) = v + a).
    { unfold Rmax, Rmin; repeat destruct Rle_dec; lra. }
    split; [exact H1 |].
    unfold with_pitch; cbn. rewrite H1.
    replace (- a + (v + a)) with v by ring.
    assert (H2 : Rmax PITCH_LIMIT_LOW (Rmin PITCH_LIMIT_HIGH v) = v).
    { unfold Rmax, Rmin; repeat destruct Rle_dec; lra. }
    rewrite H2. reflexivity.
  - intros Hab. unfold Rmax, Rmin; repeat destruct Rle_dec; lra.
Qed.

(** ** Reverse extraction, continued *)

(** X7. Reverse extraction overwrites: whatever turning and moving went
    before, extracting from a camera gives the state that extracting alone
    gives, and extracting twice is extracting once. *)
Theorem setPropertiesFromCamera_overwrites (c : Camera) (a b x y z : R)
    (s : FPSRollViewController) :
  setPropertiesFromCamera c (move x y z (pitch b (yaw a s))) =
    setPropertiesFromCamera c s /\
  setPropertiesFromCamera c (setPropertiesFromCamera c s) =
    setPropertiesFromCamera c s.
Proof.
  split.
  - unfold setPropertiesFromCamera. destruct (Rlt_dec _ 0); reflexivity.
  - apply setPropertiesFromCamera_idempotent.
Qed.

(** X8. The two pitch folds of the branch correction never fire: the raw
    pitch is an arcsine, which lies in [-π/2, π/2], so the pitch written is
    always the native yaw angle of the basis-removed orientation. *)
Theorem setPropertiesFromCamera_pitch_never_folded (c : Camera)
    (s : FPSRollViewController) :
  let q := basis_removed (orientation c) in
  - HALF_PI <= getYaw q <= HALF_PI /\
  fold_pitch (getYaw q) = getYaw q /\
  pitch_property_ (setPropertiesFromCamera c s) =
    setFloat (getYaw q) (pitch_property_ s).
Proof.
  intros q.
  assert (Hb : - HALF_PI <= getYaw q <= HALF_PI).
  { unfold getYaw, ASin, HALF_PI. apply asin_bound. }
  assert (Hf : fold_pitch (getYaw q) = getYaw q).
  { unfold fold_pitch. repeat destruct Rlt_dec; lra. }
  split; [exact Hb |]. split; [exact Hf |].
  subst q. unfold setPropertiesFromCamera.
  fold (basis_removed (orientation c)).
  fold (fold_pitch (getYaw (basis_removed (orientation c)))).
  rewrite Hf.
  destruct (Rlt_dec _ 0); reflexivity.
Qed.

(** ** The forward push *)

(** X9. [updateCamera] makes the camera the forward transform of the
    properties and changes nothing else; doing it twice is doing it once;
    and a camera position read into the position property by reverse
    extraction comes back unchanged. *)
Theorem updateCamera_roundtrip (c : Camera) (s : FPSRollViewController) :
  forward_consistent (updateCamera s) /\
  properties (updateCamera s) = properties s /\
  updateCamera (updateCamera s) = updateCamera s /\
  position (camera_ (base_ (updateCamera (setPropertiesFromCamera c s)))) = position c.
Proof.
  split; [split; reflexivity |]. split; [reflexivity |]. split; [reflexivity |].
  rewrite updateCamera_camera. cbn [position]. unfold getVector.
  unfold setPropertiesFromCamera. destruct (Rlt_dec _ 0); reflexivity.
Qed.

(** ** Changing the target frame *)

(** X10. [onTargetFrameChanged] keeps the sum of position property and
    reference position: the new position plus the current reference
    position is the old position plus the old reference position.  Nothing
    else changes, and nothing at all when the reference position is the
    old one. *)
Theorem onTargetFrameChanged_anchored (old_position : Vector3)
    (old_orientation : Quaternion) (s : FPSRollViewController) :
  let s' := onTargetFrameChanged old_position old_orientation s in
  vadd (position_property_ s') (reference_position_ (base_ s')) =
    vadd (position_property_ s) old_position /\
  yaw_property_ s' = yaw_property_ s /\
  pitch_property_ s' = pitch_property_ s /\
  roll_property_ s' = roll_property_ s /\
  base_ s' = base_ s /\
  onTargetFrameChanged (reference_position_ (base_ s)) old_orientation s = s.
Proof.
  cbv zeta. unfold onTargetFrameChanged, addVector; cbn.
  split.
  - destruct (position_property_ s), old_position, (reference_position_ (base_ s)).
    unfold vadd, vsub; cbn. f_equal; ring.
  - repeat split.
    destruct s as [y p r [px py pz] b0]; unfold with_position; cbn.
    destruct (reference_position_ b0). unfold vadd, vsub; cbn.
    f_equal. f_equal; ring.
Qed.

(** ** Mouse events, continued *)

(** X11. Whatever the event, [handleMouseEvent] leaves the roll property,
    the bounds of yaw and pitch, the camera, the reference pose, the scene
    node and the transform lookups alone, and requests at most one render,
    also when a pointer move and a wheel turn come in one event. *)
Theorem handleMouseEvent_frame (event : ViewportMouseEvent)
    (s : FPSRollViewController) :
  let s' := handleMouseEvent event s in
  roll_property_ s' = roll_property_ s /\
  fp_min (yaw_property_ s') = fp_min (yaw_property_ s) /\
  fp_max (yaw_property_ s') = fp_max (yaw_property_ s) /\
  fp_min (pitch_property_ s') = fp_min (pitch_property_ s) /\
  fp_max (pitch_property_ s') = fp_max (pitch_property_ s) /\
  camera_ (base_ s') = camera_ (base_ s) /\
  reference_position_ (base_ s') = reference_position_ (base_ s) /\
  reference_orientation_ (base_ s') = reference_orientation_ (base_ s) /\
  target_scene_node_ (base_ s') = target_scene_node_ (base_ s) /\
  transform_lookups_ (base_ s') = transform_lookups_ (base_ s) /\
  (render_requests_ (base_ s) <= render_requests_ (base_ s') <=
     S (render_requests_ (base_ s)))%nat.
Proof.
  intros s'. subst s'.
  pose proof (handleMouseEvent_properties event s) as Hp.
  pose proof (f_equal (fun p => fst (fst (fst p))) Hp) as Hyaw.
  pose proof (f_equal (fun p => snd (fst (fst p))) Hp) as Hpitch.
  pose proof (f_equal (fun p => snd (fst p)) Hp) as Hroll.
  cbn [properties fst snd] in Hyaw, Hpitch, Hroll.
  rewrite Hyaw, Hpitch, Hroll, handleMouseEvent_base. cbv zeta.
  unfold wheel_action, button_action.
  destruct (classify event), (Z.eqb (wheel_delta event) 0),
    (is_MouseMove (type event) || negb false), (is_MouseMove (type event) || negb true);
    cbn; repeat split; lia.
Qed.

(** X12. An event that does not rotate amounts to one move: a pan with a
    wheel turn is the single move (dx·0.01, -dy·0.01, -wheel·0.01), a move
    along Z with a wheel turn is (0, 0, dy·0.1 - wheel·0.01), and a wheel
    turn alone is (0, 0, -wheel·0.01). *)
Theorem handleMouseEvent_single_move (event : ViewportMouseEvent)
    (s : FPSRollViewController) :
  classify event <> Rotate ->
  properties (handleMouseEvent event s) =
    properties
      (match classify event with
       | Pan => move (IZR (dx event) * 0.01) (- (IZR (dy event) * 0.01))
                     (- (IZR (wheel_delta event) * 0.01)) s
       | MoveAlongZ => move 0 0 (IZR (dy event) * 0.1
                                 - IZR (wheel_delta event) * 0.01) s
       | _ => move 0 0 (- (IZR (wheel_delta event) * 0.01)) s
       end).
Proof.
  intros Hrot. rewrite handleMouseEvent_properties. f_equal.
  unfold wheel_action, button_action.
  destruct (Z.eqb_spec (wheel_delta event) 0) as [Hw | Hw];
    [rewrite Hw |]; destruct (classify event); try contradiction.
  - apply move_eq; lra.
  - apply move_eq; lra.
  - rewrite <- (move_zero s) at 1. apply move_eq; lra.
  - rewrite move_add. apply move_eq; lra.
  - rewrite move_add. apply move_eq; lra.
  - reflexivity.
Qed.

(** ** The basis rotation *)

Lemma cos_PI4_sqr : cos (PI / 4) * cos (PI / 4) = 1 / 2.
Proof.
  rewrite cos_PI4.
  assert (H2 : sqrt 2 * sqrt 2 = 2) by (apply sqrt_sqrt; lra).
  assert (Hn : sqrt 2 <> 0) by (intros H0; rewrite H0 in H2; lra).
  field_simplify; [| assumption]. rewrite <- H2 at 2.
  unfold pow; field; assumption.
Qed.

Lemma sin_PI4_cos : sin (PI / 4) = cos (PI / 4).
Proof. rewrite sin_PI4, cos_PI4. reflexivity. Qed.

Lemma ROBOT_TO_CAMERA_ROTATION_components :
  ROBOT_TO_CAMERA_ROTATION = mkQuaternion (1 / 2) (1 / 2) (- (1 / 2)) (- (1 / 2)).
Proof.
  unfold ROBOT_TO_CAMERA_ROTATION, qmul, FromAngleAxis; cbn.
  destruct half_right_angle as [_ ->].
  rewrite cos_neg, sin_neg, sin_PI4_cos.
  pose proof cos_PI4_sqr as H. set (a := cos (PI / 4)) in *.
  f_equal; nra.
Qed.

(** X13. The robot-to-camera basis rotation is the unit quaternion
    (1/2, 1/2, -1/2, -1/2): it takes the camera's forward axis -Z to the
    robot's forward axis +X, the camera's up axis +Y to the robot's up axis
    +Z and the camera's right axis +X to -Y; its inverse is its conjugate. *)
Theorem ROBOT_TO_CAMERA_ROTATION_axes :
  ROBOT_TO_CAMERA_ROTATION = mkQuaternion (1 / 2) (1 / 2) (- (1 / 2)) (- (1 / 2)) /\
  qrot ROBOT_TO_CAMERA_ROTATION NEGATIVE_UNIT_Z = UNIT_X /\
  qrot ROBOT_TO_CAMERA_ROTATION UNIT_Y = UNIT_Z /\
  qrot ROBOT_TO_CAMERA_ROTATION UNIT_X = mkVector3 0 (-1) 0 /\
  Inverse ROBOT_TO_CAMERA_ROTATION =
    mkQuaternion (1 / 2) (- (1 / 2)) (1 / 2) (1 / 2).
Proof.
  rewrite ROBOT_TO_CAMERA_ROTATION_components.
  split; [reflexivity |].
  unfold qrot, vadd, vscale, crossProduct, NEGATIVE_UNIT_Z, UNIT_X, UNIT_Y, UNIT_Z; cbn.
  repeat split; try (f_equal; lra).
  unfold Inverse.
  assert (Hn : Norm (mkQuaternion (1 / 2) (1 / 2) (- (1 / 2)) (- (1 / 2))) = 1)
    by (unfold Norm; cbn; lra).
  rewrite Hn. cbn.
  destruct (Rlt_dec 0 1) as [_ | Hc]; [f_equal; lra | exfalso; apply Hc; lra].
Qed.

(** ** Reverse extraction of a yawed and pitched camera *)

Lemma Inverse_cancel_l (q r : Quaternion) :
  0 < Norm r -> qmul (qmul q r) (Inverse r) = q.
Proof.
  intros Hn. unfold Inverse. destruct (Rlt_dec 0 (Norm r)) as [_ | Hc]; [| contradiction].
  destruct q as [w1 x1 y1 z1], r as [w2 x2 y2 z2].
  unfold Norm in *; cbn in *.
  unfold qmul; cbn. f_equal; field; lra.
Qed.

Lemma ATan2_polar (r a : R) :
  0 < r -> - PI < a <= PI -> ATan2 (r * sin a) (r * cos a) = a.
Proof.
  intros Hr [Hlo Hhi]. pose proof PI_RGT_0 as Hpi.
  assert (Htan : forall c, cos c <> 0 -> r * sin c / (r * cos c) = tan c).
  { intros c Hc. unfold tan. field. split; lra. }
  unfold ATan2, HALF_PI.
  destruct (Rlt_le_dec a (- (PI / 2))) as [H1 | H1].
  - (* third quadrant *)
    assert (Hc : cos a < 0).
    { rewrite <- cos_neg. apply cos_lt_0; lra. }
    assert (Hs : sin a < 0) by (apply sin_lt_0_var; lra).
    assert (HX : r * cos a < 0) by nra.
    assert (HY : r * sin a < 0) by nra.
    destruct (Rlt_dec 0 (r * cos a)); [lra |].
    destruct (Rlt_dec (r * cos a) 0); [| lra].
    destruct (Rlt_dec (r * sin a) 0); [| lra].
    rewrite Htan by lra.
    replace (tan a) with (tan (a + PI)).
    + rewrite atan_tan by lra. ring.
    + unfold tan. rewrite neg_sin, neg_cos. field. lra.
  - destruct (Req_dec a (- (PI / 2))) as [E1 | N1].
    + subst a. rewrite cos_neg, sin_neg, cos_PI2, sin_PI2.
      replace (r * 0) with 0 by ring. replace (r * - (1)) with (- r) by ring.
      destruct (Rlt_dec 0 0); [lra |].
      destruct (Rlt_dec 0 (- r)); [lra |].
      destruct (Rlt_dec (- r) 0); [reflexivity | lra].
    + destruct (Rlt_le_dec a (PI / 2)) as [H2 | H2].
      * (* right half plane *)
        assert (Hc : 0 < cos a) by (apply cos_gt_0; lra).
        assert (HX : 0 < r * cos a) by nra.
        destruct (Rlt_dec 0 (r * cos a)); [| lra].
        rewrite Htan by lra. apply atan_tan. lra.
      * destruct (Req_dec a (PI / 2)) as [E2 | N2].
        -- subst a. rewrite cos_PI2, sin_PI2.
           replace (r * 0) with 0 by ring. replace (r * 1) with r by ring.
           destruct (Rlt_dec 0 0); [lra |].
           destruct (Rlt_dec 0 r); [reflexivity | lra].
        -- (* second quadrant *)
           assert (Hc : cos a < 0) by (apply cos_lt_0; lra).
           assert (Hs : 0 <= sin a) by (apply sin_ge_0; lra).
           assert (HX : r * cos a < 0) by nra.
           assert (HY : 0 <= r * sin a) by nra.
           destruct (Rlt_dec 0 (r * cos a)); [lra |].
           destruct (Rlt_dec (r * cos a) 0); [| lra].
           destruct (Rlt_dec (r * sin a) 0); [lra |].
           rewrite Htan by lra.
           replace (tan a) with (tan (a - PI)).
           ++ rewrite atan_tan by lra. ring.
           ++ unfold tan.
              replace a with ((a - PI) + PI) at 3 4 by ring.
              rewrite neg_sin, neg_cos. field.
              replace a with ((a - PI) + PI) in Hc by ring.
              rewrite neg_cos in Hc. lra.
Qed.

Lemma double_half (a : R) :
  sin a = 2 * sin (0.5 * a) * cos (0.5 * a) /\
  cos a = cos (0.5 * a) * cos (0.5 * a) - sin (0.5 * a) * sin (0.5 * a).
Proof.
  rewrite <- sin_2a, <- cos_2a.
  replace (2 * (0.5 * a)) with a by lra. split; reflexivity.
Qed.

Lemma yaw_pitch_components (psi theta : R) :
  qmul (FromAngleAxis psi UNIT_Z) (FromAngleAxis theta UNIT_Y) =
    mkQuaternion (cos (0.5 * psi) * cos (0.5 * theta))
                 (- (sin (0.5 * psi) * sin (0.5 * theta)))
                 (cos (0.5 * psi) * sin (0.5 * theta))
                 (sin (0.5 * psi) * cos (0.5 * theta)).
Proof. unfold qmul, FromAngleAxis; cbn. f_equal; ring. Qed.

Lemma yaw_pitch_angles (psi theta : R) :
  let q := qmul (FromAngleAxis psi UNIT_Z) (FromAngleAxis theta UNIT_Y) in
  getYaw q = asin (sin theta) /\
  getRoll q = ATan2 (cos theta * sin psi) (cos theta * cos psi) /\
  forward_projection (forward_direction q) = cos theta.
Proof.
  cbv zeta. rewrite yaw_pitch_components.
  destruct (double_half psi) as [Hsp Hcp].
  destruct (double_half theta) as [Hst Hct].
  pose proof (sin2_cos2 (0.5 * psi)) as Hp. pose proof (sin2_cos2 (0.5 * theta)) as Ht.
  unfold Rsqr in Hp, Ht.
  unfold getYaw, getRoll, ASin, forward_projection, forward_direction, qrot,
    vadd, vscale, crossProduct; cbn.
  rewrite Hsp, Hcp, Hst, Hct.
  set (cp := cos (0.5 * psi)) in *. set (sp := sin (0.5 * psi)) in *.
  set (ct := cos (0.5 * theta)) in *. set (st := sin (0.5 * theta)) in *.
  split; [| split].
  - f_equal.
    transitivity (2 * st * ct * (sp * sp + cp * cp)); [ring | rewrite Hp; ring].
  - f_equal; ring.
  - match goal with
    | |- ?l = _ =>
        transitivity (st * st + ct * ct - 2 * (st * st) * (sp * sp + cp * cp));
        [rewrite Ht; ring | rewrite Hp; ring]
    end.
Qed.

Lemma mapAngleTo0_2Pi_ATan2 (r psi : R) :
  0 < r -> 0 <= psi < TWO_PI ->
  mapAngleTo0_2Pi (ATan2 (r * sin psi) (r * cos psi)) = psi.
Proof.
  intros Hr [Hlo Hhi]. unfold TWO_PI in Hhi. pose proof PI_RGT_0 as Hpi.
  destruct (Rle_lt_dec psi PI) as [Hle | Hgt].
  - rewrite ATan2_polar by lra. apply mapAngleTo0_2Pi_id. unfold TWO_PI; lra.
  - assert (Hs : sin psi = sin (psi - 2 * PI)).
    { rewrite sin_minus, cos_2PI, sin_2PI. ring. }
    assert (Hc : cos psi = cos (psi - 2 * PI)).
    { rewrite cos_minus, cos_2PI, sin_2PI. ring. }
    rewrite Hs, Hc, ATan2_polar by lra.
    rewrite (mapAngleTo0_2Pi_shift _ (-1)); unfold TWO_PI; lra.
Qed.

(** X14. Reverse extraction undoes the composition that the commented-out
    return statement of [getOrientation] spells out: from a camera whose
    orientation is yaw about Z, then pitch about Y, then the basis
    rotation, with yaw in [0, 2π) and pitch strictly between -π/2 and π/2,
    it writes exactly that yaw and that pitch (through the properties'
    setters) and the camera's position; no branch correction is applied. *)
Theorem setPropertiesFromCamera_roundtrip (psi theta : R) (p : Vector3)
    (s : FPSRollViewController) :
  0 <= psi < TWO_PI ->
  - HALF_PI < theta < HALF_PI ->
  let s' := setPropertiesFromCamera (mkCamera p (intended_orientation psi theta)) s in
  yaw_property_ s' = setFloat psi (yaw_property_ s) /\
  pitch_property_ s' = setFloat theta (pitch_property_ s) /\
  position_property_ s' = p /\
  0 <= forward_projection
         (forward_direction (basis_removed (intended_orientation psi theta))).
Proof.
  intros Hpsi Htheta s'. subst s'.
  unfold HALF_PI in Htheta.
  assert (Hq : basis_removed (intended_orientation psi theta) =
               qmul (FromAngleAxis psi UNIT_Z) (FromAngleAxis theta UNIT_Y)).
  { unfold basis_removed, intended_orientation. apply Inverse_cancel_l.
    rewrite Norm_ROBOT_TO_CAMERA_ROTATION. lra. }
  destruct (yaw_pitch_angles psi theta) as (Hyaw & Hroll & Hfwd). cbv zeta in *.
  assert (Hcos : 0 < cos theta) by (apply cos_gt_0; lra).
  unfold setPropertiesFromCamera. cbn [orientation position].
  fold (basis_removed (intended_orientation psi theta)).
  fold (forward_direction (basis_removed (intended_orientation psi theta))).
  rewrite forward_projection_dot, Hq, Hfwd, Hyaw, Hroll.
  destruct (Rlt_dec (cos theta) 0) as [Hneg | _]; [lra |].
  cbn [yaw_property_ pitch_property_ position_property_ with_yaw with_pitch with_position].
  rewrite mapAngleTo0_2Pi_ATan2 by assumption.
  rewrite asin_sin by lra.
  repeat split. unfold setVector. lra.
Qed.

(** X15. A camera pitched over the pole takes the branch correction: for
    yaw about Z in [0, 2π) followed by pitch about Y strictly between π/2
    and 3π/2, the forward projection is negative, the pitch written is
    π minus the pitch, and the yaw written is the opposite yaw, wrapped:
    2π - yaw, or 0 for yaw 0, whichever sign the lateral projection has. *)
Theorem setPropertiesFromCamera_over_the_pole (psi theta : R) (p : Vector3)
    (s : FPSRollViewController) :
  0 <= psi < TWO_PI ->
  HALF_PI < theta < 3 * HALF_PI ->
  let s' := setPropertiesFromCamera (mkCamera p (intended_orientation psi theta)) s in
  forward_projection
    (forward_direction (basis_removed (intended_orientation psi theta))) < 0 /\
  pitch_property_ s' = setFloat (PI - theta) (pitch_property_ s) /\
  yaw_property_ s' = setFloat (mapAngleTo0_2Pi (- psi)) (yaw_property_ s).
Proof.
  intros Hpsi Htheta s'. subst s'.
  unfold HALF_PI in Htheta. unfold TWO_PI in Hpsi. pose proof PI_RGT_0 as Hpi.
  assert (Hq : basis_removed (intended_orientation psi theta) =
               qmul (FromAngleAxis psi UNIT_Z) (FromAngleAxis theta UNIT_Y)).
  { unfold basis_removed, intended_orientation. apply Inverse_cancel_l.
    rewrite Norm_ROBOT_TO_CAMERA_ROTATION. lra. }
  destruct (yaw_pitch_angles psi theta) as (Hyaw & Hroll & Hfwd). cbv zeta in *.
  assert (Hcos : cos theta < 0) by (apply cos_lt_0; lra).
  assert (Hasin : asin (sin theta) = PI - theta).
  { rewrite <- (sin_PI_x theta). apply asin_sin. lra. }
  assert (Hatan : exists k : Z,
            ATan2 (cos theta * sin psi) (cos theta * cos psi) = psi + IZR k * PI /\
            (k = 1%Z \/ k = (-1)%Z)).
  { assert (Hsm : sin (psi - PI) = - sin psi).
    { replace psi with ((psi - PI) + PI) at 2 by ring. rewrite neg_sin. ring. }
    assert (Hcm : cos (psi - PI) = - cos psi).
    { replace psi with ((psi - PI) + PI) at 2 by ring. rewrite neg_cos. ring. }
    destruct (Req_dec psi 0) as [-> | Hne].
    - exists 1%Z.
      replace (cos theta * sin 0) with (- cos theta * sin (0 + PI))
        by (rewrite neg_sin; ring).
      replace (cos theta * cos 0) with (- cos theta * cos (0 + PI))
        by (rewrite neg_cos; ring).
      rewrite ATan2_polar by lra. split; [ring | left; reflexivity].
    - exists (-1)%Z.
      replace (cos theta * sin psi) with (- cos theta * sin (psi - PI))
        by (rewrite Hsm; ring).
      replace (cos theta * cos psi) with (- cos theta * cos (psi - PI))
        by (rewrite Hcm; ring).
      rewrite ATan2_polar by lra. split; [ring | right; reflexivity]. }
  split; [rewrite Hq, Hfwd; exact Hcos |].
  unfold setPropertiesFromCamera. cbn [orientation position].
  fold (basis_removed (intended_orientation psi theta)).
  fold (forward_direction (basis_removed (intended_orientation psi theta))).
  rewrite forward_projection_dot, Hq, Hfwd, Hyaw, Hroll, Hasin.
  destruct (Rlt_dec (cos theta) 0) as [_ | Hn]; [| contradiction].
  destruct (Rlt_dec (PI / 2) (PI - theta)) as [Hc | _]; [unfold HALF_PI in Hc; lra |].
  destruct (Rlt_dec (PI - theta) (- (PI / 2))) as [Hc | _]; [lra |].
  destruct Hatan as (k & Hk & Hcases). rewrite Hk.
  assert (Hwrap : forall sign : Z, (sign = 1 \/ sign = -1)%Z ->
            mapAngleTo0_2Pi (- (psi + IZR k * PI) + IZR sign * PI) =
            mapAngleTo0_2Pi (- psi)).
  { intros sign Hsign.
    assert (Heven : exists j : Z, IZR sign - IZR k = 2 * IZR j).
    { destruct Hcases as [-> | ->], Hsign as [-> | ->];
        [exists 0%Z | exists (-1)%Z | exists 1%Z | exists 0%Z]; lra. }
    destruct Heven as [j Hj].
    replace (- (psi + IZR k * PI) + IZR sign * PI)
      with (- psi + IZR j * TWO_PI) by (unfold TWO_PI; nra).
    apply mapAngleTo0_2Pi_period. }
  cbn [yaw_property_ pitch_property_ position_property_ with_yaw with_pitch with_position].
  split; [unfold HALF_PI; destruct (Rlt_dec (PI / 2) (PI - theta)); [lra |];
          destruct (Rlt_dec (PI - theta) (- (PI / 2))); [lra | reflexivity] |].
  destruct (Rlt_dec _ 0).
  - replace (- (psi + IZR k * PI) - PI) with (- (psi + IZR k * PI) + IZR (-1) * PI) by lra.
    rewrite Hwrap by (right; reflexivity). reflexivity.
  - replace (- (psi + IZR k * PI) + PI) with (- (psi + IZR k * PI) + IZR 1 * PI) by lra.
    rewrite Hwrap by (left; reflexivity). reflexivity.
Qed.

(** ** Sequences of calls *)

Section CallProperties.

Variable lookAt_orientation : SceneNode -> Camera -> Vector3 -> Quaternion.
Variable base_update : R -> R -> ViewControllerBase -> ViewControllerBase.
Variable ViewController : Type.
Variable getCamera : ViewController -> Camera.
Variable base_mimic : ViewController -> ViewControllerBase -> ViewControllerBase.

Lemma setPropertiesFromCamera_explicit (c : Camera) (s : FPSRollViewController) :
  setPropertiesFromCamera c s =
    mkController
      (setFloat (mapAngleTo0_2Pi (extracted_yaw (orientation c))) (yaw_property_ s))
      (setFloat (extracted_pitch (orientation c)) (pitch_property_ s))
      (roll_property_ s) (position c) (base_ s).
Proof.
  unfold setPropertiesFromCamera, extracted_pitch, extracted_yaw,
    corrected_yaw, fold_pitch.
  fold (basis_removed (orientation c)).
  fold (forward_direction (basis_removed (orientation c))).
  rewrite forward_projection_dot, lateral_projection_dot.
  destruct (Rlt_dec (forward_projection _) 0); reflexivity.
Qed.

(** The state after [reset], written out. *)
Lemma reset_explicit (s : FPSRollViewController) :
  let c := Camera_lookAt lookAt_orientation (target_scene_node_ (base_ s))
             (mkVector3 0 0 0)
             (mkCamera (mkVector3 (-10) 0 1) (getOrientation s)) in
  reset lookAt_orientation s =
    mkController
      (setFloat (mapAngleTo0_2Pi (extracted_yaw (orientation c))) (yaw_property_ s))
      (setFloat (extracted_pitch (orientation c)) (pitch_property_ s))
      (roll_property_ s) (mkVector3 (-10) 0 1)
      (with_camera c (base_ s)).
Proof.
  cbv zeta. unfold reset. rewrite !setPropertiesFromCamera_explicit.
  reflexivity.
Qed.

(** X16. [reset] is idempotent, and forgets the pose it starts from: the
    camera pose and the yaw, pitch and position values before the call do
    not matter.  One call suffices. *)
Theorem reset_idempotent (c : Camera) (a b x y z : R) (s : FPSRollViewController) :
  reset lookAt_orientation (reset lookAt_orientation s) = reset lookAt_orientation s /\
  reset lookAt_orientation (setCamera c (move x y z (pitch b (yaw a s)))) =
    reset lookAt_orientation s.
Proof.
  split.
  - rewrite (reset_explicit (reset lookAt_orientation s)).
    rewrite !(reset_explicit s). reflexivity.
  - rewrite !reset_explicit. reflexivity.
Qed.


(** X17. [lookAt] and [mimic] discard pending input: turning and moving
    that has not been pushed to the camera is overwritten by the
    extraction, so the call gives the same state as without it.  [lookAt]
    does not move the camera, and leaves the position property equal to
    the camera position. *)
Theorem lookAt_discards_pending_input (point : Vector3) (source_view : ViewController)
    (a b x y z : R) (s : FPSRollViewController) :
  lookAt lookAt_orientation point (move x y z (pitch b (yaw a s))) =
    lookAt lookAt_orientation point s /\
  mimic ViewController getCamera base_mimic source_view (move x y z (pitch b (yaw a s))) =
    mimic ViewController getCamera base_mimic source_view s /\
  position (camera_ (base_ (lookAt lookAt_orientation point s))) =
    position (camera_ (base_ s)) /\
  position_property_ (lookAt lookAt_orientation point s) = position (camera_ (base_ s)).
Proof.
  unfold lookAt, mimic. rewrite !setPropertiesFromCamera_explicit.
  repeat split; reflexivity.
Qed.

Lemma ATan2_bound (fY fX : R) : - PI <= ATan2 fY fX <= PI.
Proof.
  pose proof PI_RGT_0 as Hpi.
  pose proof (atan_bound (fY / fX)) as [Hlo Hhi].
  unfold ATan2, HALF_PI.
  destruct (Rlt_dec 0 fX); [lra |].
  destruct (Rlt_dec fX 0) as [Hx |].
  - destruct (Rlt_dec fY 0) as [Hy | Hy].
    + assert (Hpos : 0 < atan (fY / fX)).
      { rewrite <- atan_0. apply atan_increasing.
        unfold Rdiv. apply Rmult_neg_neg; [assumption |].
        apply Rinv_lt_0_compat; assumption. }
      lra.
    + assert (Hneg : atan (fY / fX) <= 0).
      { destruct (Req_dec fY 0) as [-> | Hne].
        - unfold Rdiv. rewrite Rmult_0_l, atan_0. lra.
        - rewrite <- atan_0. left. apply atan_increasing.
          unfold Rdiv. replace 0 with (fY * 0) by ring.
          apply Rmult_lt_compat_l; [lra |].
          apply Rinv_lt_0_compat; assumption. }
      lra.
  - repeat destruct Rlt_dec; lra.
Qed.

(** X18. A tick of [update] that receives a transform overwrites the three
    angle properties with the native angles of the transform's orientation:
    the yaw written is an arcsine, between -π/2 and π/2, the roll and pitch
    written are arctangents, between -π and π.  The position property is
    kept, the transform's position is not used at all, the camera ends as
    the forward transform of the properties, and the inherited members end
    as in a tick without transform. *)
Theorem update_with_transform (frames : FrameManager) (dt ros_dt : R)
    (new_position other_position : Vector3) (new_orientation : Quaternion)
    (s : FPSRollViewController) :
  frames (target_frame_property_ (base_update dt ros_dt (base_ s))) =
    Some (new_position, new_orientation) ->
  let s' := update base_update frames dt ros_dt s in
  yaw_property_ s' = setFloat (getYaw new_orientation) (yaw_property_ s) /\
  pitch_property_ s' = setFloat (getPitch new_orientation) (pitch_property_ s) /\
  roll_property_ s' = setFloat (getRoll new_orientation) (roll_property_ s) /\
  - (PI / 2) <= getYaw new_orientation <= PI / 2 /\
  - PI <= getPitch new_orientation <= PI /\
  - PI <= getRoll new_orientation <= PI /\
  position_property_ s' = position_property_ s /\
  forward_consistent s' /\
  s' = update base_update (fun _ => Some (other_position, new_orientation)) dt ros_dt s /\
  base_ s' = base_ (update base_update (fun _ => None) dt ros_dt s).
Proof.
  intros Hframes s'. subst s'.
  pose proof (update_properties base_update frames dt ros_dt s) as Hp.
  cbv zeta in Hp. rewrite Hframes in Hp.
  pose proof (f_equal (fun p => fst (fst (fst p))) Hp) as Hyaw.
  pose proof (f_equal (fun p => snd (fst (fst p))) Hp) as Hpitch.
  pose proof (f_equal (fun p => snd (fst p)) Hp) as Hroll.
  pose proof (f_equal snd Hp) as Hpos.
  cbn [properties fst snd] in Hyaw, Hpitch, Hroll, Hpos.
  split; [exact Hyaw |]. split; [exact Hpitch |]. split; [exact Hroll |].
  split; [unfold getYaw, ASin; apply asin_bound |].
  split; [unfold getPitch; apply ATan2_bound |].
  split; [unfold getRoll; apply ATan2_bound |].
  split; [exact Hpos |].
  split; [apply update_forward_consistent |].
  split.
  - unfold update.
    cbn [base_ with_base target_frame_property_ with_transform_lookup].
    rewrite Hframes. reflexivity.
  - rewrite !update_base. reflexivity.
Qed.

Lemma yaw_wrapped_setFloat (v : R) (s t : FPSRollViewController) :
  yaw_unbounded s ->
  yaw_property_ t = setFloat (mapAngleTo0_2Pi v) (yaw_property_ s) ->
  yaw_unbounded t /\ yaw_wrapped t.
Proof.
  intros [Hmin Hmax] Ht. unfold yaw_unbounded, yaw_wrapped. rewrite Ht.
  split; [split; assumption |].
  rewrite setFloat_unbounded by assumption. apply mapAngleTo0_2Pi_range.
Qed.

Lemma yaw_wrapped_keep (s t : FPSRollViewController) :
  yaw_property_ t = yaw_property_ s ->
  yaw_unbounded s /\ yaw_wrapped s -> yaw_unbounded t /\ yaw_wrapped t.
Proof. unfold yaw_unbounded, yaw_wrapped. intros ->. trivial. Qed.

Lemma yaw_wrapped_perform (c : Call ViewController) (s : FPSRollViewController) :
  transform_free c ->
  yaw_unbounded s /\ yaw_wrapped s ->
  yaw_unbounded (perform lookAt_orientation base_update ViewController getCamera
                   base_mimic c s) /\
  yaw_wrapped (perform lookAt_orientation base_update ViewController getCamera
                 base_mimic c s).
Proof.
  intros Hfree H. pose proof (proj1 H) as Hu.
  destruct c; cbn [perform].
  - rewrite reset_explicit. cbv zeta. eapply yaw_wrapped_setFloat; [exact Hu | reflexivity].
  - pose proof (f_equal (fun p => fst (fst (fst p)))
                  (handleMouseEvent_properties event s)) as Hy.
    cbn [properties fst snd] in Hy.
    unfold wheel_action, button_action in Hy.
    destruct (Z.eqb (wheel_delta event) 0), (classify event);
      cbn in Hy;
      first [ apply (yaw_wrapped_keep s); [exact Hy | exact H]
            | eapply yaw_wrapped_setFloat; [exact Hu | exact Hy] ].
  - rewrite setPropertiesFromCamera_explicit.
    eapply yaw_wrapped_setFloat; [exact Hu | reflexivity].
  - unfold mimic. rewrite setPropertiesFromCamera_explicit.
    eapply yaw_wrapped_setFloat; [exact Hu | reflexivity].
  - pose proof (f_equal (fun p => fst (fst (fst p)))
                  (update_properties base_update frames dt ros_dt s)) as Hy.
    cbv zeta in Hy. cbn in Hfree. rewrite Hfree in Hy.
    apply (yaw_wrapped_keep s); [exact Hy | exact H].
  - unfold lookAt. rewrite setPropertiesFromCamera_explicit.
    eapply yaw_wrapped_setFloat; [exact Hu | reflexivity].
  - apply (yaw_wrapped_keep s); [reflexivity | exact H].
  - apply (yaw_wrapped_keep s); [reflexivity | exact H].
  - eapply yaw_wrapped_setFloat; [exact Hu | reflexivity].
  - apply (yaw_wrapped_keep s); [reflexivity | exact H].
  - exact H.
  - apply (yaw_wrapped_keep s); [reflexivity | exact H].
Qed.

(** X19. From construction on, the yaw property stays unbounded and within
    [0, 2π) through every sequence of calls in which no [update] tick
    receives a transform. *)
Theorem yaw_wrapped_without_transform (calls : list (Call ViewController))
    (b : ViewControllerBase) :
  Forall transform_free calls ->
  yaw_wrapped (perform_all lookAt_orientation base_update ViewController getCamera
                 base_mimic calls (FPSRollViewController_new b)).
Proof.
  intros Hfree.
  assert (Hinit : yaw_unbounded (FPSRollViewController_new b) /\
                  yaw_wrapped (FPSRollViewController_new b)).
  { split; [split; reflexivity |].
    unfold yaw_wrapped; cbn. pose proof TWO_PI_pos. lra. }
  revert Hinit. generalize (FPSRollViewController_new b).
  induction Hfree as [| c calls Hc _ IH]; intros s Hs; cbn.
  - apply Hs.
  - apply IH. apply yaw_wrapped_perform; assumption.
Qed.

End CallProperties.

(** ** Instances of the further conditional statements *)

Lemma sample_yaw_unbounded : yaw_unbounded sample_controller.
Proof. split; reflexivity. Qed.

Lemma sample_yaw_wrapped : yaw_wrapped sample_controller.
Proof. unfold yaw_wrapped; cbn. pose proof TWO_PI_pos. lra. Qed.

(** X5 at the freshly constructed controller, turning by 1 rad. *)
Lemma yaw_compose_witness :
  yaw_unbounded sample_controller /\
  yaw_wrapped sample_controller /\
  yaw 2 (yaw 1 sample_controller) = yaw (1 + 2) sample_controller /\
  yaw (- 1) (yaw 1 sample_controller) = sample_controller.
Proof.
  pose proof (yaw_compose 1 2 0 sample_controller sample_yaw_unbounded)
    as (H1 & _ & H3).
  split; [exact sample_yaw_unbounded |]. split; [exact sample_yaw_wrapped |].
  split; [exact H1 | exact (H3 sample_yaw_wrapped)].
Defined.

Lemma sample_pitch_room :
  PITCH_LIMIT_LOW <= getFloat (pitch_property_ sample_controller) + 0.5
    <= PITCH_LIMIT_HIGH.
Proof.
  unfold PITCH_LIMIT_LOW, PITCH_LIMIT_HIGH; cbn.
  pose proof PI_bounds. unfold HALF_PI, Rmax, Rmin; repeat destruct Rle_dec; lra.
Qed.

(** X6 at the freshly constructed controller, pitching by 0.5 rad. *)
Lemma pitch_exact_within_limits_witness :
  pitch_limited sample_controller /\
  PITCH_LIMIT_LOW <= getFloat (pitch_property_ sample_controller) + 0.5
    <= PITCH_LIMIT_HIGH /\
  getFloat (pitch_property_ (pitch 0.5 sample_controller)) =
    getFloat (pitch_property_ sample_controller) + 0.5 /\
  pitch (- (0.5)) (pitch 0.5 sample_controller) = sample_controller.
Proof.
  pose proof (proj1 (pitch_exact_within_limits 0.5 0.5 sample_controller
                       (pitch_limited_new sample_base)) sample_pitch_room)
    as [H1 H2].
  split; [exact (pitch_limited_new sample_base) |].
  split; [exact sample_pitch_room |].
  split; [exact H1 | exact H2].
Defined.

(** X12 at the sideways drag with the right button. *)
Lemma handleMouseEvent_single_move_witness :
  classify right_drag_sideways <> Rotate /\
  properties (handleMouseEvent right_drag_sideways sample_controller) =
    properties (move 0 0 (IZR (dy right_drag_sideways) * 0.1
                          - IZR (wheel_delta right_drag_sideways) * 0.01)
                     sample_controller).
Proof.
  assert (H : classify right_drag_sideways <> Rotate) by (cbn; discriminate).
  split; [exact H |].
  exact (handleMouseEvent_single_move right_drag_sideways sample_controller H).
Defined.

Lemma sample_angles_in_range :
  0 <= 1 < TWO_PI /\ - HALF_PI < 0.5 < HALF_PI /\ HALF_PI < 2 < 3 * HALF_PI.
Proof. unfold TWO_PI, HALF_PI. pose proof PI_bounds. repeat split; lra. Qed.

(** X14 at yaw 1 rad, pitch 0.5 rad. *)
Lemma setPropertiesFromCamera_roundtrip_witness :
  0 <= 1 < TWO_PI /\
  - HALF_PI < 0.5 < HALF_PI /\
  yaw_property_ (setPropertiesFromCamera
                   (mkCamera ZERO (intended_orientation 1 0.5)) sample_controller) =
    setFloat 1 (yaw_property_ sample_controller) /\
  pitch_property_ (setPropertiesFromCamera
                     (mkCamera ZERO (intended_orientation 1 0.5)) sample_controller) =
    setFloat 0.5 (pitch_property_ sample_controller).
Proof.
  destruct sample_angles_in_range as (Hy & Hp & _).
  pose proof (setPropertiesFromCamera_roundtrip 1 0.5 ZERO sample_controller Hy Hp)
    as (H1 & H2 & _).
  split; [exact Hy |]. split; [exact Hp |]. split; [exact H1 | exact H2].
Defined.

(** X15 at yaw 1 rad, pitch 2 rad. *)
Lemma setPropertiesFromCamera_over_the_pole_witness :
  0 <= 1 < TWO_PI /\
  HALF_PI < 2 < 3 * HALF_PI /\
  pitch_property_ (setPropertiesFromCamera
                     (mkCamera ZERO (intended_orientation 1 2)) sample_controller) =
    setFloat (PI - 2) (pitch_property_ sample_controller) /\
  yaw_property_ (setPropertiesFromCamera
                   (mkCamera ZERO (intended_orientation 1 2)) sample_controller) =
    setFloat (mapAngleTo0_2Pi (- 1)) (yaw_property_ sample_controller).
Proof.
  destruct sample_angles_in_range as (Hy & _ & Hp).
  pose proof (setPropertiesFromCamera_over_the_pole 1 2 ZERO sample_controller Hy Hp)
    as (_ & H1 & H2).
  split; [exact Hy |]. split; [exact Hp |]. split; [exact H1 | exact H2].
Defined.

(** X18 at a tick that receives the nose-down orientation. *)
Lemma update_with_transform_witness :
  nose_down_frames
    (target_frame_property_ (idle_base_update 0.02 0.02 (base_ sample_controller))) =
    Some (ZERO, nose_down) /\
  yaw_property_ (update idle_base_update nose_down_frames 0.02 0.02 sample_controller) =
    setFloat (getYaw nose_down) (yaw_property_ sample_controller) /\
  forward_consistent
    (update idle_base_update nose_down_frames 0.02 0.02 sample_controller).
Proof.
  pose proof (update_with_transform idle_base_update nose_down_frames 0.02 0.02
                ZERO ZERO nose_down sample_controller eq_refl) as H.
  cbv zeta in H. destruct H as (H1 & _ & _ & _ & _ & _ & _ & H8 & _).
  split; [reflexivity |]. split; [exact H1 | exact H8].
Defined.

Lemma sample_calls_transform_free : Forall transform_free sample_calls.
Proof.
  unfold sample_calls. repeat constructor.
Qed.

(** X19 at a sequence of five calls. *)
Lemma yaw_wrapped_without_transform_witness :
  Forall transform_free sample_calls /\
  yaw_wrapped (perform_all lookAt_keep idle_base_update Camera (fun c => c)
                 mimic_nothing sample_calls sample_controller).
Proof.
  split; [exact sample_calls_transform_free |].
  exact (yaw_wrapped_without_transform lookAt_keep idle_base_update Camera
           (fun c => c) mimic_nothing sample_calls sample_base
           sample_calls_transform_free).
Defined.

(** X4 at one wheel notch. *)
Lemma wheel_dolly_forward_witness :
  classify wheel_notch = NoAction /\
  position_property_ (handleMouseEvent wheel_notch sample_controller) =
    vadd (position_property_ sample_controller)
         (vscale (IZR (wheel_delta wheel_notch) * 0.01)
                 (forward_direction (getOrientation sample_controller))).
Proof.
  split; [reflexivity |].
  exact (wheel_dolly_forward wheel_notch sample_controller eq_refl).
Defined.

(** ** Reset followed by a tick *)

Lemma forward_direction_about_Y (a : R) :
  forward_direction (FromAngleAxis a UNIT_Y) = mkVector3 (- sin a) 0 (- cos a).
Proof.
  destruct (double_half a) as [Hs Hc].
  pose proof (sin2_cos2 (0.5 * a)) as H1. unfold Rsqr in H1.
  unfold forward_direction, qrot, FromAngleAxis, vadd, vscale, crossProduct; cbn.
  rewrite Hs, Hc.
  set (c := cos (0.5 * a)) in *. set (sn := sin (0.5 * a)) in *.
  f_equal; try ring.
  transitivity (- (sn * sn + c * c) + 2 * (sn * sn)); [rewrite H1; ring | ring].
Qed.

Lemma lookAt_from_reset_position_points :
  lookAt_points_at lookAt_from_reset_position (mkVector3 (-10) 0 1) (mkVector3 0 0 0).
Proof.
  intros node q. unfold looks_at, Camera_lookAt, lookAt_from_reset_position; cbn.
  exists (cos (atan 10)).
  pose proof (atan_bound 10) as [Hlo Hhi].
  assert (Hc : 0 < cos (atan 10)) by (apply cos_gt_0; lra).
  split; [exact Hc |].
  rewrite forward_direction_about_Y, sin_neg, cos_neg.
  assert (Hs : sin (atan 10) = 10 * cos (atan 10)).
  { pose proof (tan_atan 10) as Ht. unfold tan in Ht.
    apply (Rmult_eq_compat_r (cos (atan 10))) in Ht.
    rewrite <- Ht. field. lra. }
  unfold vscale, vsub; cbn. rewrite Hs. f_equal; ring.
Qed.

Section ResetThenUpdate.

Variable lookAt_orientation : SceneNode -> Camera -> Vector3 -> Quaternion.
Variable base_update : R -> R -> ViewControllerBase -> ViewControllerBase.

(** C9 (evaluated at the failing call sequence). Let Ogre's lookAt point a
    camera at (-10, 0, 1) at the origin.  Then [reset], the double pass,
    leaves the camera at (-10, 0, 1) looking at the world origin, with the
    position property at (-10, 0, 1) and the angle properties extracted
    from that pose.  The pose is not recoverable from them: the next
    [update] tick, with or without a transform, pushes the forward
    transform of the properties into the camera, which stays at
    (-10, 0, 1) but no longer looks at the origin, and extracting again
    from that camera is extracting from another orientation. *)
Theorem reset_pose_lost_by_update (frames : FrameManager) (dt ros_dt : R)
    (s : FPSRollViewController) :
  lookAt_points_at lookAt_orientation (mkVector3 (-10) 0 1) (mkVector3 0 0 0) ->
  let origin := mkVector3 0 0 0 in
  let extract t := setPropertiesFromCamera (camera_ (base_ t)) t in
  let point t := camera_lookAt lookAt_orientation origin t in
  let place t := setCamera (setPosition (mkVector3 (-10) 0 1) (camera_ (base_ t))) t in
  let s' := reset lookAt_orientation s in
  let s'' := update base_update frames dt ros_dt s' in
  s' = extract (point (updateCamera (extract (point (place s))))) /\
  position (camera_ (base_ s')) = mkVector3 (-10) 0 1 /\
  looks_at (camera_ (base_ s')) origin /\
  getVector (position_property_ s') = mkVector3 (-10) 0 1 /\
  extract s' = s' /\
  position (camera_ (base_ s'')) = mkVector3 (-10) 0 1 /\
  ~ looks_at (camera_ (base_ s'')) origin /\
  orientation (camera_ (base_ s'')) <> orientation (camera_ (base_ s')).
Proof.
  intros Hlook origin extract point place s' s''.
  assert (Hcam : camera_ (base_ s') =
                 Camera_lookAt lookAt_orientation (target_scene_node_ (base_ s))
                   origin (mkCamera (mkVector3 (-10) 0 1) (getOrientation s)))
    by apply reset_camera.
  assert (Hpos : position_property_ s' = mkVector3 (-10) 0 1)
    by apply reset_position_property.
  assert (Hlooks : looks_at (camera_ (base_ s')) origin)
    by (rewrite Hcam; apply Hlook).
  assert (Hcam2 : camera_ (base_ s'') =
                  mkCamera (mkVector3 (-10) 0 1) (getOrientation s')).
  { subst s''. rewrite update_base. cbv zeta. cbn [camera_ with_camera].
    unfold getVector. rewrite Hpos. reflexivity. }
  assert (Hlost : ~ looks_at (camera_ (base_ s'')) origin).
  { intros Hl. apply looks_at_level in Hl.
    - rewrite Hcam2 in Hl. cbn [orientation] in Hl.
      pose proof (getOrientation_forward_y s'). lra.
    - rewrite Hcam2. reflexivity. }
  split; [reflexivity |].
  split; [rewrite Hcam; reflexivity |].
  split; [exact Hlooks |].
  split; [exact Hpos |].
  split.
  { subst s' extract. unfold reset. cbv beta zeta.
    match goal with
    | |- setPropertiesFromCamera (camera_ (base_ (setPropertiesFromCamera ?c ?t))) _ = _ =>
        rewrite (setPropertiesFromCamera_base c t)
    end.
    apply setPropertiesFromCamera_idempotent. }
  split; [rewrite Hcam2; reflexivity |].
  split; [exact Hlost |].
  intros Heq. apply Hlost.
  destruct Hlooks as (k & Hk & Hdir).
  exists k. split; [exact Hk |].
  rewrite Heq, Hdir. rewrite Hcam2, Hcam. reflexivity.
Qed.

End ResetThenUpdate.

(** C9 at a freshly constructed controller and a tick without transform. *)
Lemma reset_pose_lost_by_update_witness :
  lookAt_points_at lookAt_from_reset_position (mkVector3 (-10) 0 1) (mkVector3 0 0 0) /\
  looks_at (camera_ (base_ (reset lookAt_from_reset_position sample_controller)))
           (mkVector3 0 0 0) /\
  ~ looks_at
      (camera_ (base_ (update idle_base_update no_transform 0.02 0.02
                         (reset lookAt_from_reset_position sample_controller))))
      (mkVector3 0 0 0).
Proof.
  pose proof (reset_pose_lost_by_update lookAt_from_reset_position idle_base_update
                no_transform 0.02 0.02 sample_controller
                lookAt_from_reset_position_points) as H.
  cbv zeta in H. destruct H as (_ & _ & H3 & _ & _ & _ & H7 & _).
  split; [exact lookAt_from_reset_position_points |].
  split; [exact H3 | exact H7].
Defined.
